(** * The MELD flash-loan liquidation bot: [offchain-bot/main.py]

    A shallow embedding of [liquidate] and [trigger_logic] and of the
    part of the Python runtime they rely on (exceptions, [int], binary64
    [float] arithmetic), followed by the properties of the sizing
    algorithm and of the execution pipeline. *)

From Stdlib Require Import ZArith NArith List Ascii String Bool Lia.
From Stdlib Require Import SpecFloat.
Import ListNotations.
Local Open Scope string_scope.
Local Open Scope Z_scope.

(** ** Python runtime *)

Module Py.

(** An exception object: its class and, when the object has one, its
    [message] attribute (the built-in classes of Python 3 have none). *)
Record exn := Exn {
  exn_class : string;
  exn_message : option string
}.

Definition ZeroDivisionError := Exn "ZeroDivisionError" None.
Definition OverflowError := Exn "OverflowError" None.
Definition ValueError := Exn "ValueError" None.
Definition TypeError := Exn "TypeError" None.
Definition IndexError := Exn "IndexError" None.
Definition AttributeError := Exn "AttributeError" None.

(** [except Exception] does not catch the classes that derive from
    [BaseException] only. *)
Definition is_Exception (e : exn) : bool :=
  negb (String.eqb (exn_class e) "SystemExit"
        || String.eqb (exn_class e) "KeyboardInterrupt"
        || String.eqb (exn_class e) "GeneratorExit").

Inductive result (A : Type) : Type :=
| Ok (a : A)
| Raise (e : exn).
Arguments Ok {A} a.
Arguments Raise {A} e.

Definition rbind {A B} (r : result A) (k : A -> result B) : result B :=
  match r with
  | Ok a => k a
  | Raise e => Raise e
  end.

(** *** binary64 *)

Definition float := spec_float.
Definition prec : Z := 53.
Definition emax : Z := 1024.

Definition fadd : float -> float -> float := SFadd prec emax.
Definition fsub : float -> float -> float := SFsub prec emax.
Definition fmul : float -> float -> float := SFmul prec emax.
Definition flt : float -> float -> bool := SFltb.

Definition is_zero (x : float) : bool :=
  match x with
  | S754_zero _ => true
  | _ => false
  end.

(** [x / y] on floats raises on a zero divisor, whatever [x] is. *)
Definition fdiv (x y : float) : result float :=
  if is_zero y then Raise ZeroDivisionError
  else Ok (SFdiv prec emax x y).

(** [float(n)] for an [int]: round to nearest, ties to even;
    [OverflowError] when the rounded value is out of range. *)
Definition float_of_int (n : Z) : result float :=
  match binary_normalize prec emax n 0 false with
  | S754_infinity _ => Raise OverflowError
  | f => Ok f
  end.

(** [a / b] on two [int]s: the correctly rounded quotient. *)
Definition int_truediv (a b : Z) : result float :=
  match b with
  | Z0 => Raise ZeroDivisionError
  | _ =>
    let s := xorb (a <? 0) (b <? 0) in
    match a with
    | Z0 => Ok (S754_zero s)
    | _ =>
      let '(q, e, l) := SFdiv_core_binary prec emax (Z.abs a) 0 (Z.abs b) 0 in
      match binary_round_aux prec emax s q e l with
      | S754_infinity _ => Raise OverflowError
      | f => Ok f
      end
    end
  end.

(** [int(x)] for a float: truncation towards zero. *)
Definition int_of_float (x : float) : result Z :=
  match x with
  | S754_zero _ => Ok 0
  | S754_infinity _ => Raise OverflowError
  | S754_nan => Raise ValueError
  | S754_finite s m e =>
    let a := match e with
             | Zneg p => Z.shiftr (Zpos m) (Zpos p)
             | _ => Z.shiftl (Zpos m) e
             end in
    Ok (if s then - a else a)
  end.

(** Mixed [int]/[float] arithmetic converts the [int] operand first. *)
Definition add_if (n : Z) (x : float) : result float :=
  rbind (float_of_int n) (fun y => Ok (fadd y x)).
Definition sub_fi (x : float) (n : Z) : result float :=
  rbind (float_of_int n) (fun y => Ok (fsub x y)).
Definition mul_fi (x : float) (n : Z) : result float :=
  rbind (float_of_int n) (fun y => Ok (fmul x y)).
Definition mul_if (n : Z) (x : float) : result float :=
  rbind (float_of_int n) (fun y => Ok (fmul y x)).
Definition div_fi (x : float) (n : Z) : result float :=
  rbind (float_of_int n) (fun y => fdiv x y).

(** [x < n] for a float and an [int] compares the exact values; for
    the small [n] used here the conversion of [n] is exact. *)
Definition flt_int (x : float) (n : Z) : bool :=
  flt x (binary_normalize prec emax n 0 false).

(** [pow(10, d)] for a non-negative [int] exponent is an [int]. *)
Definition pow10 (d : N) : Z := 10 ^ Z.of_N d.

(** The literal [1.01]: the double nearest to 101/100. *)
Definition lit_1_01 : float := S754_finite false 4548635623644201 (-52).

(** *** Values decoded from JSON

    The fields of a position are whatever [response.json()] produced;
    the code converts them with [float(...)] and [int(...)] where it
    computes with them. *)
Inductive pyval :=
| PyNone
| PyBool (b : bool)
| PyInt (n : Z)
| PyFloat (x : float)
| PyStr (s : string).

(** How [float] and [int] read a [str] is left to the interpreter. *)
Record StrConv := {
  float_of_str : string -> result float;
  int_of_str : string -> result Z
}.

Definition py_float (K : StrConv) (v : pyval) : result float :=
  match v with
  | PyNone => Raise TypeError
  | PyBool b => float_of_int (if b then 1 else 0)
  | PyInt n => float_of_int n
  | PyFloat x => Ok x
  | PyStr s => float_of_str K s
  end.

Definition py_int (K : StrConv) (v : pyval) : result Z :=
  match v with
  | PyNone => Raise TypeError
  | PyBool b => Ok (if b then 1 else 0)
  | PyInt n => Ok n
  | PyFloat x => int_of_float x
  | PyStr s => int_of_str K s
  end.

(** [v == True]: [True] equals the numbers 1 and 1.0 and nothing else. *)
Definition eq_True (v : pyval) : bool :=
  match v with
  | PyBool b => b
  | PyInt n => n =? 1
  | PyFloat x => SFeqb x (S754_finite false 4503599627370496 (-52))
  | _ => false
  end.

End Py.

Import Py.

(** ** Data model (main.py, lines 127-208) *)

Record StableRate := {
  sr_fiatAmount : pyval;
  sr_originalBorrowedAmount : pyval;
  sr_rate : pyval;
  sr_totalBorrowedAmount : pyval
}.

Record VariableRate := {
  vr_fiatAmount : pyval;
  vr_originalBorrowedAmount : pyval;
  vr_totalBorrowedAmount : pyval
}.

Record BorrowedAsset := {
  b_contract : string;
  b_liquidationPrice : pyval;
  stableRate : StableRate;
  variableRate : VariableRate
}.

Record SuppliedAsset := {
  c_contract : string;
  fiatAmount : pyval;
  isCollateral : pyval;
  c_liquidationPrice : pyval;
  originalSuppliedAmount : pyval;
  totalSuppliedAmount : pyval
}.

Record LiquidatablePosition := {
  address : string;
  riskFactor : pyval;
  borrowedAssets : list BorrowedAsset;
  supliedAssets : list SuppliedAsset
}.

(** ** The node and the signer, as the bot sees them *)

(** Arguments of [liquidateUserWithFlashLoan], in call order. *)
Record LiquidateCall := {
  lc_debt : string;
  lc_debtToCover : Z;
  lc_collateral : string;
  lc_user : string;
  lc_assets : list string
}.

(** The dictionary handed to [build_transaction]. *)
Record TxParams := {
  tp_chainId : Z;
  tp_from : string;
  tp_nonce : Z
}.

(** A built transaction: the call, the parameters given, and what the
    node filled in (gas, fees, calldata), kept opaque. *)
Record Transaction := {
  tx_call : LiquidateCall;
  tx_params : TxParams;
  tx_filled : string
}.

Record SignedTransaction := {
  rawTransaction : string
}.

Record Receipt := {
  transactionHash : string;
  status : Z
}.

(** Everything outside the process: [World] is the state of the node and
    of the indexing API, and every remote call may raise and may change
    it. The pure helpers of web3 are part of the same interface. The
    numbers decoded from contract calls are unsigned: the tuple of
    [getReserveConfigurationData] is read as a list of [int]s (its flags
    are 0 or 1), and [decimals], a [uint8], as a natural number.
    [getLiquidatablePositions] stands for the function of that name
    (lines 105-123), whose HTTP request and decoding are on the far side
    of this interface; its [sys.exit()] is a raised [SystemExit]. *)
Record Web3 (World : Type) := {
  conv : StrConv;
  to_checksum_address : string -> result string;
  sign_transaction : Transaction -> string -> result SignedTransaction;
  keccak : string -> string;
  to_hex : string -> string;
  hex : string -> string;
  getLiquidatablePositions : World -> result (list LiquidatablePosition) * World;
  liquidationProtocolFeePercentage : World -> result Z * World;
  getReserveConfigurationData : string -> World -> result (list Z) * World;
  decimals : string -> World -> result N * World;
  get_transaction_count : string -> World -> result Z * World;
  build_transaction : LiquidateCall -> TxParams -> World -> result Transaction * World;
  send_raw_transaction : string -> World -> result string * World;
  wait_for_transaction_receipt : string -> World -> result Receipt * World
}.
Arguments conv {World} _.
Arguments to_checksum_address {World} _ _.
Arguments sign_transaction {World} _ _ _.
Arguments keccak {World} _ _.
Arguments to_hex {World} _ _.
Arguments hex {World} _ _.
Arguments getLiquidatablePositions {World} _ _.
Arguments liquidationProtocolFeePercentage {World} _ _.
Arguments getReserveConfigurationData {World} _ _ _.
Arguments decimals {World} _ _ _.
Arguments get_transaction_count {World} _ _ _.
Arguments build_transaction {World} _ _ _ _.
Arguments send_raw_transaction {World} _ _ _.
Arguments wait_for_transaction_receipt {World} _ _ _.

(** Module-level configuration (lines 17-18 and 78). *)
Record Config := {
  CHAIN_ID : Z;
  LIQUIDATOR_WALLET_ADDRESS : string;
  LIQUIDATOR_WALLET_PRIVATE_KEY : string
}.

(** ** What a run does: console lines and remote calls, in order *)

(** One constructor for each [print] of [liquidate] (lines 212-232) and
    of [trigger_logic] (lines 239-327), with the values it formats. The
    banner of lines 245 and 252 is the same text, hence one line. *)
Inductive line :=
| L_liquidating_user (a : string)
| L_collateral_address (a : string)
| L_debt_address (a : string)
| L_debt_to_cover (n : Z)
| L_tx_hash (h : string)
| L_no_liquidations
| L_positions_open (n : nat)
| L_new_liquidation
| L_collateral (c : SuppliedAsset)
| L_skipping
| L_debt (b : BorrowedAsset)
| L_collateral_fiat (v : pyval)
| L_debt_fiat (v : pyval)
| L_fee (x : float)
| L_bonus (x : float)
| L_scale_factor (x : float)
| L_full_debt
| L_partial_debt
| L_one_debt_usd (x : float)
| L_one_collateral_usd (x : float)
| L_debt_to_cover_tokens (x : float)
| L_debt_to_cover_sent (n : Z)
| L_success (a : string)
| L_failed
| L_message (m : string)
| L_finished.

(** The remote calls, with their arguments. *)
Inductive request :=
| R_positions
| R_fee
| R_reserve_config (a : string)
| R_decimals (a : string)
| R_tx_count (a : string)
| R_build (c : LiquidateCall) (p : TxParams)
| R_send_raw (raw : string)
| R_wait_receipt (h : string).

Inductive event :=
| Print (l : line)
| Rpc (r : request).

(** ** The monad of the script: exceptions, the world, the trace *)

Section Script.

Context {World : Type}.

(** The outcome of running a piece of the script from a given world: a
    value or a raised exception, the world it leaves, what it did. *)
Record run (A : Type) := Run {
  res : result A;
  final : World;
  trace : list event
}.
Arguments Run {A} _ _ _.
Arguments res {A} _.
Arguments final {A} _.
Arguments trace {A} _.

Definition M (A : Type) := World -> run A.

Definition ret {A} (a : A) : M A := fun w => Run (Ok a) w [].

Definition raise {A} (e : exn) : M A := fun w => Run (Raise e) w [].

Definition bind {A B} (m : M A) (k : A -> M B) : M B := fun w =>
  let r := m w in
  match res r with
  | Ok a =>
    let r' := k a (final r) in
    Run (res r') (final r') (trace r ++ trace r')
  | Raise e => Run (Raise e) (final r) (trace r)
  end.

Definition lift {A} (r : result A) : M A := fun w => Run r w [].

Definition print (l : line) : M unit := fun w => Run (Ok tt) w [Print l].

Definition rpc {A} (q : request) (f : World -> result A * World) : M A :=
  fun w => let '(r, w') := f w in Run r w' [Rpc q].

(** [try: body / except Exception as e: handler e]. *)
Definition try_except {A} (body : M A) (handler : exn -> M A) : M A := fun w =>
  let r := body w in
  match res r with
  | Ok a => r
  | Raise e =>
    if is_Exception e then
      let r' := handler e (final r) in
      Run (res r') (final r') (trace r ++ trace r')
    else r
  end.

End Script.

Arguments run : clear implicits.
Arguments M : clear implicits.
Arguments Run {World A} _ _ _.
Arguments res {World A} _.
Arguments final {World A} _.
Arguments trace {World A} _.

Declare Scope script_scope.
Delimit Scope script_scope with script.
Notation "x <- m ;; k" := (bind m (fun x => k))
  (at level 61, m at next level, right associativity) : script_scope.
Notation "m ;; k" := (bind m (fun _ => k))
  (at level 61, right associativity) : script_scope.

Local Open Scope script_scope.

(** ** The program *)

Section Bot.

Context {World : Type}.
Variable E : Web3 World.
Variable cfg : Config.

(** [t[i]] on a tuple. *)
Definition index (t : list Z) (i : nat) : result Z :=
  match nth_error t i with
  | Some x => Ok x
  | None => Raise IndexError
  end.

(** [liquidate] (lines 211-232). The function has no [return]: its
    value is [None]. *)
Definition liquidate (collateralAddress debtAddress pk caller
    walletToLiquidateAddress : string) (debtToCover : Z) : M World pyval :=
  print (L_liquidating_user walletToLiquidateAddress) ;;
  print (L_collateral_address collateralAddress) ;;
  print (L_debt_address debtAddress) ;;
  print (L_debt_to_cover debtToCover) ;;
  d <- lift (to_checksum_address E debtAddress) ;;
  c <- lift (to_checksum_address E collateralAddress) ;;
  u <- lift (to_checksum_address E walletToLiquidateAddress) ;;
  c' <- lift (to_checksum_address E collateralAddress) ;;
  d' <- lift (to_checksum_address E debtAddress) ;;
  let call := {| lc_debt := d; lc_debtToCover := debtToCover;
                 lc_collateral := c; lc_user := u; lc_assets := [c'; d'] |} in
  nonce <- rpc (R_tx_count caller) (get_transaction_count E caller) ;;
  let params := {| tp_chainId := CHAIN_ID cfg; tp_from := caller;
                   tp_nonce := nonce |} in
  transaction <- rpc (R_build call params) (build_transaction E call params) ;;
  signed_txn <- lift (sign_transaction E transaction pk) ;;
  let tx_hash := to_hex E (keccak E (rawTransaction signed_txn)) in
  _ <- rpc (R_send_raw (rawTransaction signed_txn))
           (send_raw_transaction E (rawTransaction signed_txn)) ;;
  receipt <- rpc (R_wait_receipt tx_hash)
                 (wait_for_transaction_receipt E tx_hash) ;;
  print (L_tx_hash (hex E (transactionHash receipt))) ;;
  ret PyNone.

(** Lines 274-281: fee, bonus and scale factor, from the two raw
    on-chain numbers. *)
Definition fee_of_raw (feeRaw : Z) : result float := int_truediv feeRaw 100.

Definition bonus_of_raw (x : Z) : result float :=
  rbind (int_truediv x 100) (fun q => sub_fi q 100).

Definition scale_factor (liquidationBonus liquidationProtocolFee : float)
  : result float :=
  rbind (div_fi liquidationProtocolFee 100) (fun a =>
  rbind (add_if 1 a) (fun s =>
  rbind (div_fi (fmul liquidationBonus s) 100) (fun r =>
  add_if 1 r))).

(** Lines 288-308: the partial-repay branch. *)
Definition partial_repay (c : SuppliedAsset) (b : BorrowedAsset)
    (collateralAddress debtAddress : string)
    (liquidationScaleFactor : float) : M World Z :=
  print L_partial_debt ;;
  da <- lift (to_checksum_address E debtAddress) ;;
  dDecimals <- rpc (R_decimals da) (decimals E da) ;;
  n1 <- lift (py_float (conv E) (vr_fiatAmount (variableRate b))) ;;
  t1 <- lift (py_int (conv E) (vr_totalBorrowedAmount (variableRate b))) ;;
  q1 <- lift (int_truediv t1 (pow10 dDecimals)) ;;
  oneDebtInUSD <- lift (fdiv n1 q1) ;;
  print (L_one_debt_usd oneDebtInUSD) ;;
  ca <- lift (to_checksum_address E collateralAddress) ;;
  cDecimals <- rpc (R_decimals ca) (decimals E ca) ;;
  n2 <- lift (py_float (conv E) (fiatAmount c)) ;;
  t2 <- lift (py_int (conv E) (totalSuppliedAmount c)) ;;
  q2 <- lift (int_truediv t2 (pow10 cDecimals)) ;;
  oneCollateralInUSD <- lift (fdiv n2 q2) ;;
  print (L_one_collateral_usd oneCollateralInUSD) ;;
  n3 <- lift (py_float (conv E) (fiatAmount c)) ;;
  x <- lift (fdiv n3 oneDebtInUSD) ;;
  tokens <- lift (fdiv x liquidationScaleFactor) ;;
  print (L_debt_to_cover_tokens tokens) ;;
  let margin := lit_1_01 in
  y <- lift (mul_fi tokens (pow10 dDecimals)) ;;
  n <- lift (int_of_float y) ;;
  z <- lift (mul_if n margin) ;;
  debtToCover <- lift (int_of_float z) ;;
  print (L_debt_to_cover_sent debtToCover) ;;
  ret debtToCover.

(** Lines 310-325: the attempt and its handler. [true] is the [break]
    taken after a success, [false] the fall-through to the next debt. *)
Definition attempt (user collateralAddress debtAddress : string)
    (debtToCover : Z) : M World bool :=
  try_except
    (_ <- liquidate collateralAddress debtAddress
            (LIQUIDATOR_WALLET_PRIVATE_KEY cfg)
            (LIQUIDATOR_WALLET_ADDRESS cfg) user debtToCover ;;
     print (L_success user) ;;
     ret true)
    (fun e =>
       print L_failed ;;
       match exn_message e with
       | Some m => print (L_message m) ;; ret false
       | None => raise AttributeError
       end).

(** Lines 266-325: the body of the loop over the debts. *)
Definition trigger_logic_pair (user : string) (c : SuppliedAsset)
    (b : BorrowedAsset) : M World bool :=
  print (L_debt b) ;;
  collateralAddress <- lift (to_checksum_address E (c_contract c)) ;;
  debtAddress <- lift (to_checksum_address E (b_contract b)) ;;
  print (L_collateral_fiat (fiatAmount c)) ;;
  print (L_debt_fiat (vr_fiatAmount (variableRate b))) ;;
  feeRaw <- rpc R_fee (liquidationProtocolFeePercentage E) ;;
  liquidationProtocolFee <- lift (fee_of_raw feeRaw) ;;
  print (L_fee liquidationProtocolFee) ;;
  data <- rpc (R_reserve_config collateralAddress)
              (getReserveConfigurationData E collateralAddress) ;;
  x <- lift (index data 3) ;;
  liquidationBonus <- lift (bonus_of_raw x) ;;
  print (L_bonus liquidationBonus) ;;
  liquidationScaleFactor <-
    lift (scale_factor liquidationBonus liquidationProtocolFee) ;;
  print (L_scale_factor liquidationScaleFactor) ;;
  dfiat <- lift (py_float (conv E) (vr_fiatAmount (variableRate b))) ;;
  cfiat <- lift (py_float (conv E) (fiatAmount c)) ;;
  debtToCover <-
    (if flt (fmul dfiat liquidationScaleFactor) cfiat then
       print L_full_debt ;;
       lift (py_int (conv E) (vr_totalBorrowedAmount (variableRate b)))
     else
       partial_repay c b collateralAddress debtAddress
         liquidationScaleFactor) ;;
  attempt user collateralAddress debtAddress debtToCover.

(** Lines 264-325: the loop over the debts of one collateral; its value
    is the flag [done] after the loop. *)
Fixpoint trigger_logic_debts (user : string) (c : SuppliedAsset)
    (bs : list BorrowedAsset) : M World bool :=
  match bs with
  | [] => ret false
  | b :: bs' =>
    done <- trigger_logic_pair user c b ;;
    if done then ret true else trigger_logic_debts user c bs'
  end.

(** Lines 251-325: the loop over the collaterals. *)
Fixpoint trigger_logic_collaterals (user : string)
    (debts : list BorrowedAsset) (done : bool) (cs : list SuppliedAsset)
  : M World unit :=
  match cs with
  | [] => ret tt
  | c :: cs' =>
    print L_new_liquidation ;;
    print (L_collateral c) ;;
    v <- lift (py_float (conv E) (fiatAmount c)) ;;
    if flt_int v 1 then
      print L_skipping ;;
      trigger_logic_collaterals user debts done cs'
    else if done then ret tt
    else
      done' <- trigger_logic_debts user c debts ;;
      trigger_logic_collaterals user debts done' cs'
  end.

(** Lines 245-325: one position. *)
Definition trigger_logic_position (p : LiquidatablePosition) : M World unit :=
  print L_new_liquidation ;;
  let collaterals :=
    filter (fun asset => eq_True (isCollateral asset)) (supliedAssets p) in
  trigger_logic_collaterals (address p) (borrowedAssets p) false collaterals.

Fixpoint trigger_logic_positions (ps : list LiquidatablePosition)
  : M World unit :=
  match ps with
  | [] => ret tt
  | p :: ps' => trigger_logic_position p ;; trigger_logic_positions ps'
  end.

(** [trigger_logic] (lines 235-327). [sys.exit()] raises [SystemExit]. *)
Definition trigger_logic : M World unit :=
  liquidatablePositions <- rpc R_positions (getLiquidatablePositions E) ;;
  match liquidatablePositions with
  | [] => print L_no_liquidations ;; raise (Exn "SystemExit" None)
  | _ =>
    print (L_positions_open (List.length liquidatablePositions)) ;;
    trigger_logic_positions liquidatablePositions ;;
    print L_finished
  end.

End Bot.

Arguments liquidate {World} E cfg _ _ _ _ _ _ _.
Arguments partial_repay {World} E _ _ _ _ _ _.
Arguments attempt {World} E cfg _ _ _ _ _.
Arguments trigger_logic_pair {World} E cfg _ _ _ _.
Arguments trigger_logic_debts {World} E cfg _ _ _ _.
Arguments trigger_logic_collaterals {World} E cfg _ _ _ _ _.
Arguments trigger_logic_position {World} E cfg _ _.
Arguments trigger_logic_positions {World} E cfg _ _.
Arguments trigger_logic {World} E cfg _.

(** ** A simulated node, for running the program on concrete inputs *)

Module Sim.

(** A reader for plain decimal strings, enough for the amounts of the
    examples: an optional sign, then digits for [int], digits with at
    most one point for [float]. What Python reads beyond that (spaces,
    underscores, exponents, [inf], [nan]) is rejected here. *)
Fixpoint digits (acc : Z) (s : string) : option Z :=
  match s with
  | EmptyString => Some acc
  | String ch s' =>
    let n := Z.of_nat (Ascii.nat_of_ascii ch) in
    if (48 <=? n) && (n <=? 57) then digits (10 * acc + (n - 48)) s'
    else None
  end.

Definition unsigned (s : string) : option Z :=
  match s with
  | EmptyString => None
  | _ => digits 0 s
  end.

Fixpoint split_dot (s : string) : string * option string :=
  match s with
  | EmptyString => (EmptyString, None)
  | String "."%char s' => (EmptyString, Some s')
  | String ch s' => let '(a, b) := split_dot s' in (String ch a, b)
  end.

(** The sign of a literal and what follows it. *)
Definition split_sign (s : string) : bool * string :=
  match s with
  | String "-"%char s' => (true, s')
  | String "+"%char s' => (false, s')
  | _ => (false, s)
  end.

Definition read_int (s : string) : result Z :=
  let '(neg, body) := split_sign s in
  match unsigned body with
  | Some n => Ok (if neg then - n else n)
  | None => Raise ValueError
  end.

Definition read_unsigned_float (s : string) : result float :=
  match split_dot s with
  | (a, None) =>
    match unsigned a with
    | Some n => float_of_int n
    | None => Raise ValueError
    end
  | (a, Some frac) =>
    match unsigned (a ++ frac) with
    | Some n => int_truediv n (10 ^ Z.of_nat (String.length frac))
    | None => Raise ValueError
    end
  end.

Definition read_float (s : string) : result float :=
  let '(neg, body) := split_sign s in
  rbind (read_unsigned_float body)
        (fun x => Ok (if neg then SFopp x else x)).

Definition decimal_conv : StrConv :=
  {| float_of_str := read_float; int_of_str := read_int |}.

(** The knobs of the simulation. The world is the number of
    transactions the node has accepted, which is also the next nonce. *)
Record Knobs := {
  k_positions : list LiquidatablePosition;
  k_fee : Z;
  k_reserve : string -> list Z;
  k_decimals : string -> N;
  k_send : string -> result string
}.

Definition web3 (k : Knobs) : Web3 nat := {|
  conv := decimal_conv;
  to_checksum_address := fun a => Ok a;
  sign_transaction := fun tx pk =>
    Ok {| rawTransaction := "signed(" ++ tx_filled tx ++ ")" |};
  keccak := fun s => "keccak(" ++ s ++ ")";
  to_hex := fun s => "0x" ++ s;
  hex := fun s => s;
  getLiquidatablePositions := fun w => (Ok (k_positions k), w);
  liquidationProtocolFeePercentage := fun w => (Ok (k_fee k), w);
  getReserveConfigurationData := fun a w => (Ok (k_reserve k a), w);
  decimals := fun a w => (Ok (k_decimals k a), w);
  get_transaction_count := fun a w => (Ok (Z.of_nat w), w);
  build_transaction := fun c p w =>
    (Ok {| tx_call := c; tx_params := p;
           tx_filled := lc_collateral c ++ "<-" ++ lc_debt c |}, w);
  send_raw_transaction := fun raw w =>
    match k_send k raw with
    | Ok h => (Ok h, S w)
    | Raise e => (Raise e, w)
    end;
  wait_for_transaction_receipt := fun h w =>
    (Ok {| transactionHash := h; status := 1 |}, w)
|}.

Definition config : Config := {|
  CHAIN_ID := 1;
  LIQUIDATOR_WALLET_ADDRESS := "0xB07";
  LIQUIDATOR_WALLET_PRIVATE_KEY := "key"
|}.

(** Reserve data with the liquidation bonus at index 3. *)
Definition reserve (bonusRaw : Z) : list Z :=
  [18; 7500; 8000; bonusRaw; 1000; 1; 1; 0; 1; 0].

Definition supplied (a : string) (fiat total : pyval) : SuppliedAsset := {|
  c_contract := a;
  fiatAmount := fiat;
  isCollateral := PyBool true;
  c_liquidationPrice := PyNone;
  originalSuppliedAmount := total;
  totalSuppliedAmount := total
|}.

Definition borrowed (a : string) (fiat total : pyval) : BorrowedAsset := {|
  b_contract := a;
  b_liquidationPrice := PyNone;
  stableRate := {| sr_fiatAmount := PyStr "0";
                   sr_originalBorrowedAmount := PyStr "0";
                   sr_rate := PyStr "0";
                   sr_totalBorrowedAmount := PyStr "0" |};
  variableRate := {| vr_fiatAmount := fiat;
                     vr_originalBorrowedAmount := total;
                     vr_totalBorrowedAmount := total |}
|}.

Definition position (user : string) (bs : list BorrowedAsset)
    (cs : list SuppliedAsset) : LiquidatablePosition :=
  {| address := user; riskFactor := PyNone;
     borrowedAssets := bs; supliedAssets := cs |}.

End Sim.

Local Open Scope list_scope.

(** ** Vocabulary of the properties *)

(** The run [r] with the event [e] in front of its trace. *)
Definition prepend {World A} (e : event) (r : run World A)
  : run World A :=
  Run (res r) (final r) (e :: trace r).

(** The events [liquidate] can produce for a given amount, and the
    three lines the attempt around it adds. *)
Definition liquidate_event (amount : Z) (e : event) : bool :=
  match e with
  | Print (L_liquidating_user _) | Print (L_collateral_address _)
  | Print (L_debt_address _) | Print (L_tx_hash _) => true
  | Print (L_debt_to_cover n) => n =? amount
  | Rpc (R_tx_count _) | Rpc (R_send_raw _) | Rpc (R_wait_receipt _) => true
  | Rpc (R_build c _) => lc_debtToCover c =? amount
  | _ => false
  end.

Definition is_success (e : event) : bool :=
  match e with
  | Print (L_success _) => true
  | _ => false
  end.

Definition attempt_event (amount : Z) (e : event) : bool :=
  match e with
  | Print (L_success _) | Print L_failed | Print (L_message _) => true
  | _ => liquidate_event amount e
  end.

(** The lines printed while scanning collaterals, as opposed to anything
    done for a collateral/debt pair. *)
Definition quiet (e : event) : bool :=
  match e with
  | Print L_new_liquidation | Print (L_collateral _) | Print L_skipping => true
  | _ => false
  end.

(** The events the body of the debts loop can produce. *)
Definition pair_event (e : event) : bool :=
  match e with
  | Print L_new_liquidation | Print (L_collateral _) | Print L_skipping
  | Print L_no_liquidations | Print (L_positions_open _) | Print L_finished
  | Rpc R_positions => false
  | _ => true
  end.

(** After the first success line of a trace, only scanning lines. *)
Fixpoint settled (t : list event) : bool :=
  match t with
  | [] => true
  | e :: t' => if is_success e then forallb quiet t' else settled t'
  end.

(** The trace before and after its first success line. *)
Fixpoint before_success (t : list event) : list event :=
  match t with
  | [] => []
  | e :: t' => if is_success e then [] else e :: before_success t'
  end.

Fixpoint after_success (t : list event) : list event :=
  match t with
  | [] => []
  | e :: t' => if is_success e then t' else after_success t'
  end.

(** *** Zero-debt pairs in the trace of a run *)

(** [int(b.variableRate.totalBorrowedAmount)] is zero. *)
Definition zero_total (K : StrConv) (b : BorrowedAsset) : bool :=
  match py_int K (vr_totalBorrowedAmount (variableRate b)) with
  | Ok 0 => true
  | _ => false
  end.

Definition is_debt_line (e : event) : bool :=
  match e with
  | Print (L_debt _) => true
  | _ => false
  end.

Definition is_decimals (e : event) : bool :=
  match e with
  | Rpc (R_decimals _) => true
  | _ => false
  end.

(** What a pair does between its debt line and its branch line (lines
    271-281): two console lines, the fee and reserve queries and the
    three figures derived from them. *)
Definition sizing_event (e : event) : bool :=
  match e with
  | Print (L_collateral_fiat _) | Print (L_debt_fiat _) | Print (L_fee _)
  | Print (L_bonus _) | Print (L_scale_factor _)
  | Rpc R_fee | Rpc (R_reserve_config _) => true
  | _ => false
  end.

(** Reading a trace from the left: [Open None] while the last debt line,
    if any, was not one of a zero-total debt; [Open (Some c)] after the
    debt line of a zero-total debt, [c] telling whether only sizing
    events followed it; [Hit] when the partial-repay line comes in that
    state after sizing events only and nothing but [decimals] calls
    follow it; [Bad] when it comes otherwise. *)
Inductive verdict :=
| Open (st : option bool)
| Hit
| Bad.

Fixpoint scan (K : StrConv) (st : option bool) (t : list event) : verdict :=
  match t with
  | [] => Open st
  | Print (L_debt b) :: t' =>
    scan K (if zero_total K b then Some true else None) t'
  | Print L_partial_debt :: t' =>
    match st with
    | Some c => if c && forallb is_decimals t' then Hit else Bad
    | None => scan K None t'
    end
  | e :: t' => scan K (option_map (fun c => c && sizing_event e) st) t'
  end.

(** What ends a zero-debt pair in the partial-repay branch: the division
    by zero of line 291 or, before it, a failing checksum or [decimals]
    lookup. *)
Definition zero_debt_cause {World} (E : Web3 World) (e : exn) : Prop :=
  e = ZeroDivisionError \/
  (exists a, to_checksum_address E a = Raise e) \/
  (exists a w', fst (decimals E a w') = Raise e).

(** The run [r], read from the state [st]: the reading never goes wrong,
    and when it ends on a zero-debt pair in the partial-repay branch the
    run has raised, for one of the causes above. *)
Definition stops_at_zero_debt {World A} (E : Web3 World) (st : option bool)
    (r : run World A) : Prop :=
  scan (conv E) st (trace r) <> Bad /\
  (scan (conv E) st (trace r) = Hit ->
   exists e, res r = Raise e /\ zero_debt_cause E e).

(** *** Counting, shapes and what a run reads *)

(** How many events of a kind a trace holds. *)
Definition count (f : event -> bool) (t : list event) : nat :=
  List.length (filter f t).

Definition is_send (e : event) : bool :=
  match e with
  | Rpc (R_send_raw _) => true
  | _ => false
  end.

Definition is_fee_query (e : event) : bool :=
  match e with
  | Rpc R_fee => true
  | _ => false
  end.

Definition is_reserve_query (e : event) : bool :=
  match e with
  | Rpc (R_reserve_config _) => true
  | _ => false
  end.

(** The first line of [liquidate]: an attempt starts. *)
Definition is_attempt (e : event) : bool :=
  match e with
  | Print (L_liquidating_user _) => true
  | _ => false
  end.

(** Everything one call of [liquidate] can do, in the order of lines
    212-232. *)
Definition liquidate_sequence (user ca da : string) (amount : Z)
    (caller : string) (call : LiquidateCall) (p : TxParams)
    (raw h shown : string) : list event :=
  [Print (L_liquidating_user user); Print (L_collateral_address ca);
   Print (L_debt_address da); Print (L_debt_to_cover amount);
   Rpc (R_tx_count caller); Rpc (R_build call p); Rpc (R_send_raw raw);
   Rpc (R_wait_receipt h); Print (L_tx_hash shown)].

(** The pairs a position offers: its flagged collaterals times its
    debts. *)
Definition pairs_of (p : LiquidatablePosition) : nat :=
  (List.length (filter (fun asset => eq_True (isCollateral asset))
                  (supliedAssets p))
   * List.length (borrowedAssets p))%nat.

(** The node [E] with the status of every receipt replaced. *)
Definition with_status {World} (s : Receipt -> Z) (E : Web3 World)
  : Web3 World := {|
  conv := conv E;
  to_checksum_address := to_checksum_address E;
  sign_transaction := sign_transaction E;
  keccak := keccak E;
  to_hex := to_hex E;
  hex := hex E;
  getLiquidatablePositions := getLiquidatablePositions E;
  liquidationProtocolFeePercentage := liquidationProtocolFeePercentage E;
  getReserveConfigurationData := getReserveConfigurationData E;
  decimals := decimals E;
  get_transaction_count := get_transaction_count E;
  build_transaction := build_transaction E;
  send_raw_transaction := send_raw_transaction E;
  wait_for_transaction_receipt := fun h w =>
    (match fst (wait_for_transaction_receipt E h w) with
     | Ok r => Ok {| transactionHash := transactionHash r; status := s r |}
     | Raise e => Raise e
     end, snd (wait_for_transaction_receipt E h w))
|}.

(** The collateral, debt and borrower a built call names, in terms of
    the pair it was built for: the pair checksums the two contracts, and
    [liquidate] checksums its arguments again. *)
Definition built_for {World} (E : Web3 World) (user : string)
    (c : SuppliedAsset) (b : BorrowedAsset) (call : LiquidateCall) : Prop :=
  exists ca da,
    to_checksum_address E (c_contract c) = Ok ca /\
    to_checksum_address E ca = Ok (lc_collateral call) /\
    to_checksum_address E (b_contract b) = Ok da /\
    to_checksum_address E da = Ok (lc_debt call) /\
    to_checksum_address E user = Ok (lc_user call).

(** The events of the loops: those of the pairs and the scanning lines. *)
Definition loop_event (e : event) : bool := pair_event e || quiet e.

(** *** Failure banners *)






(** *** The sizing formulas of the specification *)

(** The constants [1] and [100] as floats. *)
Definition f_one : float := S754_finite false 4503599627370496 (-52).
Definition f_hundred : float := S754_finite false 7036874417766400 (-46).

(** The scale factor as the specification writes it,
    [1 + bonus * (1 + fee / 100) / 100], in binary64. *)
Definition spec_scale_factor (bonus fee : float) : float :=
  fadd f_one
    (SFdiv prec emax
       (fmul bonus (fadd f_one (SFdiv prec emax fee f_hundred)))
       f_hundred).

(** The partial-repay amount as the specification writes it,
    [int(int((collateralFiat / oneDebtUSD / scaleFactor) * 10^d) * 1.01)]. *)
Definition spec_partial_amount (collateralFiat oneDebtUSD scaleFactor : float)
    (d : N) : result Z :=
  rbind (fdiv collateralFiat oneDebtUSD) (fun x =>
  rbind (fdiv x scaleFactor) (fun tokens =>
  rbind (mul_fi tokens (pow10 d)) (fun y =>
  rbind (int_of_float y) (fun n =>
  rbind (mul_if n lit_1_01) int_of_float)))).

(** ** Runs on the simulated node *)

Module Runs.

Import Sim.

Definition knobs (ps : list LiquidatablePosition) (feeRaw : Z)
    (dec : string -> N) (send : string -> result string) : Knobs := {|
  k_positions := ps;
  k_fee := feeRaw;
  k_reserve := fun _ => reserve 10500;
  k_decimals := dec;
  k_send := send
|}.

Definition accepted (raw : string) : result string := Ok ("h:" ++ raw)%string.

(** What web3 raises when the node rejects a raw transaction: a
    [ValueError] around the JSON-RPC error, with no [message] attribute. *)
Definition rejected (raw : string) : result string :=
  Raise (Exn "ValueError" None).

Definition d18 (a : string) : N := 18%N.

Definition c_dust := supplied "0xC0" (PyStr "0.5") (PyStr "500000000000000000").
Definition c1 := supplied "0xC1" (PyStr "100") (PyStr "50000000000000000000").
Definition c2 := supplied "0xC2" (PyStr "500") (PyStr "7000000000000000000").
Definition c_small := supplied "0xC3" (PyStr "10") (PyStr "10000000000000000000").

(** A supplied asset that is not enabled as collateral. *)
Definition deposit : SuppliedAsset := {|
  c_contract := "0xC9";
  fiatAmount := PyStr "1000";
  isCollateral := PyBool false;
  c_liquidationPrice := PyNone;
  originalSuppliedAmount := PyStr "1000000000";
  totalSuppliedAmount := PyStr "1000000000"
|}.

Definition d1 := borrowed "0xD1" (PyStr "90") (PyStr "90000000000000000000").
Definition d2 := borrowed "0xD2" (PyStr "200") (PyStr "200000000000000000000").
(** A debt whose variable total is zero while its fiat amount is not. *)
Definition d_zero := borrowed "0xD0" (PyStr "50") (PyStr "0").
(** A debt with no variable borrow at all (stable borrow only). *)
Definition d_none := borrowed "0xD3" (PyStr "0") (PyStr "0").
(** One unit of a token without decimals, worth 5000 USD. *)
Definition d_coarse := borrowed "0xD9" (PyStr "5000") (PyStr "1").

Definition p_ok := position "0xU1" [d1; d2] [c_dust; deposit; c1; c2].
Definition p_partial := position "0xU2" [d2] [c1].

Definition w_ok := web3 (knobs [p_ok] 1000 d18 accepted).
Definition w_partial := web3 (knobs [p_partial] 0 d18 accepted).
Definition w_rejecting :=
  web3 (knobs [position "0xU1" [d1; d2] [c1]] 1000 d18 rejected).
(** The node refuses to build the transaction because the call would
    revert: web3 raises [ContractLogicError], which has a [message]. *)
Definition reverting : Web3 nat :=
  let W := web3 (knobs [position "0xU1" [d1; d2] [c1]] 1000 d18 accepted) in
  {| conv := conv W;
     to_checksum_address := to_checksum_address W;
     sign_transaction := sign_transaction W;
     keccak := keccak W;
     to_hex := to_hex W;
     hex := hex W;
     getLiquidatablePositions := getLiquidatablePositions W;
     liquidationProtocolFeePercentage := liquidationProtocolFeePercentage W;
     getReserveConfigurationData := getReserveConfigurationData W;
     decimals := decimals W;
     get_transaction_count := get_transaction_count W;
     build_transaction := fun c p w =>
       (Raise (Exn "ContractLogicError" (Some "execution reverted")), w);
     send_raw_transaction := send_raw_transaction W;
     wait_for_transaction_receipt := wait_for_transaction_receipt W |}.
(** The same node for other positions. *)
Definition reverting_for (ps : list LiquidatablePosition) : Web3 nat :=
  let W := web3 (knobs ps 1000 d18 accepted) in
  {| conv := conv W;
     to_checksum_address := to_checksum_address W;
     sign_transaction := sign_transaction W;
     keccak := keccak W;
     to_hex := to_hex W;
     hex := hex W;
     getLiquidatablePositions := getLiquidatablePositions W;
     liquidationProtocolFeePercentage := liquidationProtocolFeePercentage W;
     getReserveConfigurationData := getReserveConfigurationData W;
     decimals := decimals W;
     get_transaction_count := get_transaction_count W;
     build_transaction := fun c p w =>
       (Raise (Exn "ContractLogicError" (Some "execution reverted")), w);
     send_raw_transaction := send_raw_transaction W;
     wait_for_transaction_receipt := wait_for_transaction_receipt W |}.
Definition w_zero :=
  web3 (knobs [position "0xU3" [d_zero; d1] [c_small]] 1000 d18 accepted).
(** The zero-debt pair in last place: second debt of the second
    collateral of the second position, after two attempts that the node
    made fail. *)
Definition w_zero_late :=
  reverting_for [position "0xU1" [d1] [c1];
                 position "0xU3" [d1; d_zero] [c_dust; c_small]].
(** No position is open to liquidation. *)
Definition w_idle := web3 (knobs [] 1000 d18 accepted).
(** A collateral worth 10 USD whose supplied total reads zero. *)
Definition c_empty := supplied "0xC4" (PyStr "10") (PyStr "0").
Definition w_empty :=
  web3 (knobs [position "0xU6" [d2] [c_empty]] 1000 d18 accepted).
Definition w_none :=
  web3 (knobs [position "0xU4" [d_none] [c1]] 1000 d18 accepted).
Definition w_coarse :=
  web3 (knobs [position "0xU5" [d_coarse] [c1]] 1000
          (fun a => if String.eqb a "0xD9" then 0%N else 18%N) accepted).

(** The doubles 0.5, 90 and 1.055. *)
Definition f_half : float := S754_finite false 4503599627370496 (-53).
Definition f_90 : float := S754_finite false 6333186975989760 (-46).
Definition f_1_055 : float := S754_finite false 4751297606875873 (-52).

(** The runs the examples look at. *)
Definition run_liquidate : run nat pyval :=
  liquidate w_ok config "0xC1" "0xD1" "key" "0xB07" "0xU1"
    90000000000000000000 0%nat.
Definition run_full : run nat bool :=
  trigger_logic_pair w_ok config "0xU1" c1 d1 0%nat.
Definition run_partial : run nat bool :=
  trigger_logic_pair w_partial config "0xU2" c1 d2 0%nat.
Definition run_zero : run nat bool :=
  trigger_logic_pair w_zero config "0xU3" c_small d_zero 0%nat.
Definition run_position : run nat unit :=
  trigger_logic_position w_ok config p_ok 0%nat.
Definition run_late : run nat unit :=
  trigger_logic w_zero_late config 0%nat.
Definition run_empty : run nat bool :=
  trigger_logic_pair w_empty config "0xU6" c_empty d2 0%nat.

End Runs.

(** * Properties *)

(** ** Facts about binary64 rounding

    Magnitudes are tracked as digits + exponent: a finite float with
    mantissa [m] and exponent [e] is at least one as soon as
    [digits m + e >= 1]. *)

Lemma digits2_lower p : 2 ^ (Zpos (digits2_pos p) - 1) <= Zpos p.
Proof.
  induction p as [p IH | p IH |]; cbn [digits2_pos].
  - rewrite Pos2Z.inj_succ.
    replace (Z.succ (Zpos (digits2_pos p)) - 1)
      with (Z.succ (Zpos (digits2_pos p) - 1)) by lia.
    rewrite Z.pow_succ_r by lia. lia.
  - rewrite Pos2Z.inj_succ.
    replace (Z.succ (Zpos (digits2_pos p)) - 1)
      with (Z.succ (Zpos (digits2_pos p) - 1)) by lia.
    rewrite Z.pow_succ_r by lia. lia.
  - cbn. lia.
Qed.

Lemma digits2_upper p : Zpos p < 2 ^ Zpos (digits2_pos p).
Proof.
  induction p as [p IH | p IH |]; cbn [digits2_pos].
  - rewrite Pos2Z.inj_succ, Z.pow_succ_r by lia. lia.
  - rewrite Pos2Z.inj_succ, Z.pow_succ_r by lia. lia.
  - cbn. lia.
Qed.

Lemma digits2_mono p q : (p <= q)%positive -> (digits2_pos p <= digits2_pos q)%positive.
Proof.
  intros H.
  destruct (Pos.leb_spec (digits2_pos p) (digits2_pos q)) as [Hle | Hlt]; [exact Hle | exfalso].
  pose proof (digits2_lower p). pose proof (digits2_upper q).
  assert (2 ^ Zpos (digits2_pos q) <= 2 ^ (Zpos (digits2_pos p) - 1)).
  { apply Z.pow_le_mono_r; lia. }
  lia.
Qed.

Lemma shr_1_digits mrs :
  0 <= shr_m mrs ->
  0 <= shr_m (shr_1 mrs) /\
  Zdigits2 (shr_m (shr_1 mrs)) = Z.max 0 (Zdigits2 (shr_m mrs) - 1).
Proof.
  destruct mrs as [m r s]. cbn [shr_m]. intros Hm.
  destruct m as [| [p | p |] | p]; cbn [shr_1 shr_m Zdigits2 digits2_pos];
    rewrite ?Pos2Z.inj_succ; lia.
Qed.

Lemma iter_shr_1_digits k : forall mrs,
  0 <= shr_m mrs ->
  0 <= shr_m (iter_pos shr_1 k mrs) /\
  Zdigits2 (shr_m (iter_pos shr_1 k mrs))
  = Z.max 0 (Zdigits2 (shr_m mrs) - Zpos k).
Proof.
  induction k as [k IH | k IH |]; intros mrs Hm; cbn [iter_pos].
  - destruct (shr_1_digits mrs Hm) as [H1 E1].
    destruct (IH _ H1) as [H2 E2]. destruct (IH _ H2) as [H3 E3].
    split; [exact H3 |]. rewrite E3, E2, E1. lia.
  - destruct (IH _ Hm) as [H2 E2]. destruct (IH _ H2) as [H3 E3].
    split; [exact H3 |]. rewrite E3, E2. lia.
  - apply shr_1_digits. exact Hm.
Qed.

Lemma Zdigits2_pos_iff z : 0 <= z -> (0 < Zdigits2 z <-> 0 < z).
Proof. destruct z; cbn; lia. Qed.

(** Shifting to the working precision keeps digits + exponent. *)
Lemma shr_fexp_mag z e l :
  0 < z -> 1 <= Zdigits2 z + e ->
  0 < shr_m (fst (shr_fexp prec emax z e l)) /\
  Zdigits2 (shr_m (fst (shr_fexp prec emax z e l)))
  + snd (shr_fexp prec emax z e l) = Zdigits2 z + e.
Proof.
  intros Hz Hd. unfold shr_fexp, shr.
  assert (Hm : shr_m (shr_record_of_loc z l) = z)
    by (destruct l as [| []]; reflexivity).
  assert (Hf : fexp prec emax (Zdigits2 z + e) - e = Zdigits2 z - 53)
    by (unfold fexp, emin, prec, emax; lia).
  rewrite Hf.
  destruct (Zdigits2 z - 53) as [| k | k] eqn:Hk; cbn [fst snd];
    rewrite ?Hm; try (split; [lia | lia]).
  destruct (iter_shr_1_digits k (shr_record_of_loc z l)) as [H0 E];
    [rewrite Hm; lia |].
  rewrite Hm in E.
  assert (Hp : 0 < Zdigits2 (shr_m (iter_pos shr_1 k (shr_record_of_loc z l))))
    by lia.
  apply (proj1 (Zdigits2_pos_iff _ H0)) in Hp.
  split; [exact Hp | lia].
Qed.

Lemma Zdigits2_succ z : 0 < z -> Zdigits2 z <= Zdigits2 (z + 1).
Proof.
  destruct z as [| p | p]; try lia. intros _.
  change (Zpos p + 1) with (Zpos (p + 1)). cbn [Zdigits2].
  apply Pos2Z.pos_le_pos. apply digits2_mono. lia.
Qed.

Lemma round_nearest_even_mag z l :
  0 < z ->
  0 < round_nearest_even z l /\ Zdigits2 z <= Zdigits2 (round_nearest_even z l).
Proof.
  intros Hz. pose proof (Zdigits2_succ z Hz).
  unfold round_nearest_even. destruct l as [| []]; try destruct (Z.even z);
    split; lia.
Qed.

(** Rounding a positive mantissa of magnitude at least one never lowers
    digits + exponent, and keeps the sign. *)
Lemma binary_round_aux_mag s m e l :
  1 <= Zpos (digits2_pos m) + e ->
  match binary_round_aux prec emax s (Zpos m) e l with
  | S754_infinity s' => s' = s
  | S754_finite s' m' e' =>
    s' = s /\ Zpos (digits2_pos m) + e <= Zpos (digits2_pos m') + e'
  | _ => False
  end.
Proof.
  intros Hd. unfold binary_round_aux.
  pose proof (shr_fexp_mag (Zpos m) e l eq_refl Hd) as [H1 E1].
  destruct (shr_fexp prec emax (Zpos m) e l) as [mrs' e'] eqn:Hs1.
  cbn [fst snd] in H1, E1.
  pose proof (round_nearest_even_mag (shr_m mrs') (loc_of_shr_record mrs') H1)
    as [H2 E2].
  set (z := round_nearest_even (shr_m mrs') (loc_of_shr_record mrs')) in *.
  assert (Hd2 : 1 <= Zdigits2 z + e') by (cbn [Zdigits2] in E1; lia).
  pose proof (shr_fexp_mag z e' loc_Exact H2 Hd2) as [H3 E3].
  destruct (shr_fexp prec emax z e' loc_Exact) as [mrs'' e''] eqn:Hs2.
  cbn [fst snd] in H3, E3.
  destruct (shr_m mrs'') as [| m'' | m'']; try lia.
  destruct (e'' <=? emax - prec); [| reflexivity].
  split; [reflexivity |]. cbn [Zdigits2] in E1, E3. lia.
Qed.

Lemma iter_xO_value m d : Zpos (Pos.iter xO m d) = Zpos m * 2 ^ Zpos d.
Proof.
  induction d as [| d IH] using Pos.peano_ind.
  - cbn. lia.
  - rewrite Pos.iter_succ, Pos2Z.inj_succ, Z.pow_succ_r by lia.
    rewrite Pos2Z.inj_xO, IH. lia.
Qed.

Lemma iter_xO_digits m d :
  digits2_pos (Pos.iter xO m d) = (digits2_pos m + d)%positive.
Proof.
  induction d as [| d IH] using Pos.peano_ind.
  - cbn. lia.
  - rewrite Pos.iter_succ. cbn [digits2_pos]. rewrite IH. lia.
Qed.

Lemma binary_round_mag s m e :
  1 <= Zpos (digits2_pos m) + e ->
  match binary_round prec emax s m e with
  | S754_infinity s' => s' = s
  | S754_finite s' m' e' =>
    s' = s /\ Zpos (digits2_pos m) + e <= Zpos (digits2_pos m') + e'
  | _ => False
  end.
Proof.
  intros Hd. unfold binary_round, shl_align.
  assert (Hf : fexp prec emax (Zpos (digits2_pos m) + e) - e
               = Zpos (digits2_pos m) - 53)
    by (unfold fexp, emin, prec, emax; lia).
  rewrite Hf.
  destruct (Zpos (digits2_pos m) - 53) as [| k | k] eqn:Hk;
    try (apply binary_round_aux_mag; exact Hd).
  pose proof (binary_round_aux_mag s (Pos.iter xO m k)
                (fexp prec emax (Zpos (digits2_pos m) + e)) loc_Exact) as H.
  rewrite iter_xO_digits in H.
  assert (Hfe : fexp prec emax (Zpos (digits2_pos m) + e)
                = Zpos (digits2_pos m) + e - 53)
    by (unfold fexp, emin, prec, emax; lia).
  rewrite Hfe in *.
  destruct (binary_round_aux prec emax s (Zpos (Pos.iter xO m k))
              (Zpos (digits2_pos m) + e - 53) loc_Exact);
    try (apply H; lia).
  destruct H as [-> H]; [lia |]. split; [reflexivity | lia].
Qed.

(** [float(n)] of a non-zero [n] is finite, has the sign of [n] and a
    magnitude of at least one. *)
Lemma float_of_int_nonzero n f :
  n <> 0 ->
  float_of_int n = Ok f ->
  exists m e, f = S754_finite (n <? 0) m e /\
              1 <= Zpos (digits2_pos m) + e.
Proof.
  unfold float_of_int, binary_normalize. intros Hn.
  destruct n as [| p | p]; [congruence | |].
  - pose proof (binary_round_mag false p 0) as H.
    destruct (binary_round prec emax false p 0) as [| | | s m e];
      try discriminate; try (exfalso; apply H; lia).
    intros Hf; injection Hf as <-.
    destruct H as [-> H]; [lia |]. exists m, e. split; [reflexivity | lia].
  - pose proof (binary_round_mag true p 0) as H.
    destruct (binary_round prec emax true p 0) as [| | | s m e];
      try discriminate; try (exfalso; apply H; lia).
    intros Hf; injection Hf as <-.
    destruct H as [-> H]; [lia |]. exists m, e. split; [reflexivity | lia].
Qed.

Lemma fmul_margin_mag s m e :
  1 <= Zpos (digits2_pos m) + e ->
  match fmul (S754_finite s m e) lit_1_01 with
  | S754_infinity s' => s' = s
  | S754_finite s' m' e' => s' = s /\ 1 <= Zpos (digits2_pos m') + e'
  | _ => False
  end.
Proof.
  intros Hd. unfold fmul, lit_1_01, SFmul.
  replace (xorb s false) with s by (destruct s; reflexivity).
  pose proof (binary_round_aux_mag s (m * 4548635623644201) (e + -52)
                loc_Exact) as H.
  assert (Hm : (digits2_pos m + 52 <= digits2_pos (m * 4548635623644201))%positive).
  { rewrite <- iter_xO_digits. apply digits2_mono.
    pose proof (iter_xO_value m 52) as Hv.
    assert (2 ^ 52 <= 4548635623644201) by (vm_compute; discriminate).
    nia. }
  destruct (binary_round_aux prec emax s (Zpos (m * 4548635623644201))
              (e + -52) loc_Exact);
    try (apply H; lia).
  destruct H as [-> H]; [lia |]. split; [reflexivity | lia].
Qed.

Lemma int_of_float_mag s m e n :
  1 <= Zpos (digits2_pos m) + e ->
  int_of_float (S754_finite s m e) = Ok n ->
  if s then n <= -1 else 1 <= n.
Proof.
  intros Hd. cbn [int_of_float]. intros H; injection H as <-.
  pose proof (digits2_lower m) as Hl.
  assert (Ha : 1 <= match e with
                    | Zneg p => Z.shiftr (Zpos m) (Zpos p)
                    | _ => Z.shiftl (Zpos m) e
                    end).
  { destruct e as [| q | q].
    - cbn. lia.
    - rewrite Z.shiftl_mul_pow2 by lia.
      assert (0 < 2 ^ Zpos q) by (apply Z.pow_pos_nonneg; lia). nia.
    - rewrite Z.shiftr_div_pow2 by lia.
      assert (0 < 2 ^ Zpos q) by (apply Z.pow_pos_nonneg; lia).
      assert (2 ^ Zpos q <= Zpos m).
      { eapply Z.le_trans; [| exact Hl]. apply Z.pow_le_mono_r; lia. }
      assert (0 < Zpos m / 2 ^ Zpos q) by (apply Z.div_str_pos; lia).
      lia. }
  destruct s; lia.
Qed.

(** The margin step [int(n * 1.01)] is positive exactly when [n] is. *)
Lemma margin_sign base f n :
  float_of_int base = Ok f ->
  int_of_float (fmul f lit_1_01) = Ok n ->
  (0 < n <-> 0 < base).
Proof.
  intros Hf Hn. destruct (Z.eq_dec base 0) as [-> | Hb].
  - injection Hf as <-. cbn in Hn. injection Hn as <-. lia.
  - destruct (float_of_int_nonzero base f Hb Hf) as (m & e & -> & Hd).
    pose proof (fmul_margin_mag (base <? 0) m e Hd) as H.
    destruct (fmul (S754_finite (base <? 0) m e) lit_1_01)
      as [| | | s m' e']; try discriminate Hn; try contradiction.
    destruct H as [-> H].
    pose proof (int_of_float_mag _ m' e' n H Hn) as Hs.
    destruct (Z.ltb_spec base 0); lia.
Qed.

(** [0 / 10^d] is the float zero. *)
Lemma int_truediv_zero d : int_truediv 0 (pow10 d) = Ok (S754_zero false).
Proof.
  unfold int_truediv, pow10.
  assert (H : 0 < 10 ^ Z.of_N d) by (apply Z.pow_pos_nonneg; lia).
  destruct (10 ^ Z.of_N d); [lia | reflexivity | lia].
Qed.

(** ** Symbolic execution of scripts *)

Section Exec.

Context {World : Type}.

Lemma run_eta {A} (r : run World A) : Run (res r) (final r) (trace r) = r.
Proof. destruct r; reflexivity. Qed.

Lemma bind_print {B} l (k : unit -> M World B) w :
  bind (print l) k w = prepend (Print l) (k tt w).
Proof. reflexivity. Qed.

Lemma bind_lift {A B} (r : result A) (k : A -> M World B) w :
  bind (lift r) k w
  = match r with
    | Ok a => k a w
    | Raise e => Run (Raise e) w []
    end.
Proof. destruct r; unfold bind, lift; cbn; [apply run_eta | reflexivity]. Qed.

Lemma bind_rpc {A B} q (f : World -> result A * World)
    (k : A -> M World B) w :
  bind (rpc q f) k w
  = match fst (f w) with
    | Ok a => prepend (Rpc q) (k a (snd (f w)))
    | Raise e => Run (Raise e) (snd (f w)) [Rpc q]
    end.
Proof.
  unfold bind, rpc. destruct (f w) as [[a | e] w']; reflexivity.
Qed.

Lemma bind_ret {A B} (a : A) (k : A -> M World B) w :
  bind (ret a) k w = k a w.
Proof. unfold bind, ret; cbn. apply run_eta. Qed.

Lemma bind_raise {A B} e (k : A -> M World B) w :
  bind (raise e) k w = Run (Raise e) w [].
Proof. reflexivity. Qed.

Lemma bind_assoc {A B C} (m : M World A) (k : A -> M World B)
    (k' : B -> M World C) w :
  bind (bind m k) k' w = bind m (fun a => bind (k a) k') w.
Proof.
  unfold bind. destruct (m w) as [[a | e] w1 t1]; cbn; [| reflexivity].
  destruct (k a w1) as [[b | e] w2 t2]; cbn; [| reflexivity].
  rewrite app_assoc. reflexivity.
Qed.

Lemma res_prepend {A} e (r : run World A) : res (prepend e r) = res r.
Proof. reflexivity. Qed.

Lemma final_prepend {A} e (r : run World A) : final (prepend e r) = final r.
Proof. reflexivity. Qed.

Lemma trace_prepend {A} e (r : run World A) :
  trace (prepend e r) = e :: trace r.
Proof. reflexivity. Qed.

Lemma res_bind {A B} (m : M World A) (k : A -> M World B) w :
  res (bind m k w)
  = match res (m w) with
    | Ok a => res (k a (final (m w)))
    | Raise e => Raise e
    end.
Proof. unfold bind. destruct (res (m w)); reflexivity. Qed.

Lemma trace_bind {A B} (m : M World A) (k : A -> M World B) w :
  trace (bind m k w)
  = trace (m w) ++ match res (m w) with
                   | Ok a => trace (k a (final (m w)))
                   | Raise _ => []
                   end.
Proof.
  unfold bind. destruct (res (m w)); cbn; [reflexivity |].
  symmetry; apply app_nil_r.
Qed.

Lemma final_bind {A B} (m : M World A) (k : A -> M World B) w :
  final (bind m k w)
  = match res (m w) with
    | Ok a => final (k a (final (m w)))
    | Raise _ => final (m w)
    end.
Proof. unfold bind. destruct (res (m w)); reflexivity. Qed.

End Exec.

(** One step of a script: rewrite the head of a [bind], then split on
    the outcome of the step. *)
Ltac script_rewrite :=
  first [ rewrite bind_assoc in *
        | rewrite bind_print in *
        | rewrite bind_ret in *
        | rewrite bind_raise in *
        | rewrite bind_lift in *
        | rewrite bind_rpc in * ].

Ltac script_split :=
  match goal with
  | H : context [match ?x with Ok _ => _ | Raise _ => _ end] |- _ =>
    destruct x eqn:?
  | |- context [match ?x with Ok _ => _ | Raise _ => _ end] =>
    destruct x eqn:?
  | H : context [bind (if ?b then _ else _)] |- _ => destruct b eqn:?
  | |- context [bind (if ?b then _ else _)] => destruct b eqn:?
  end.

Ltac script_leaf :=
  cbn [ret raise lift print prepend res final trace] in *.

Ltac script_step := first [ script_rewrite | script_split ].

(** Membership in an explicit list of events, case by case. *)
Ltac in_cases H :=
  repeat match type of H with
         | _ \/ _ => destruct H as [H | H]
         end;
  try contradiction; try discriminate H;
  try (injection H as H); subst.

(** ** The execution pipeline *)

Section Pipeline.

Context {World : Type}.
Variable E : Web3 World.
Variable cfg : Config.

(** C10. Whenever [liquidate] waits for a receipt, the hash it waits
    for is [to_hex (keccak raw)] of the raw bytes of the transaction it
    signed; the wait directly follows the submission of those bytes, and
    what the submission returned plays no part in it. *)
Theorem liquidate_awaits_local_hash :
  forall ca da pk caller user amount (w : World) h,
    In (Rpc (R_wait_receipt h))
       (trace (liquidate E cfg ca da pk caller user amount w)) ->
    exists tx signed pre post,
      sign_transaction E tx pk = Ok signed /\
      h = to_hex E (keccak E (rawTransaction signed)) /\
      trace (liquidate E cfg ca da pk caller user amount w)
      = pre ++ Rpc (R_send_raw (rawTransaction signed))
            :: Rpc (R_wait_receipt h) :: post /\
      (forall e, In e pre -> forall raw h', e <> Rpc (R_send_raw raw)
                                       /\ e <> Rpc (R_wait_receipt h')).
Proof.
  intros ca da pk caller user amount w h.
  unfold liquidate.
  repeat script_step.
  all: script_leaf.
  all: intros Hin; cbn [In] in Hin; in_cases Hin.
  all: match goal with
       | H : sign_transaction E ?tx _ = Ok ?s |- _ => exists tx, s
       end.
  all: eexists (_ :: _ :: _ :: _ :: _ :: [_]), _.
  all: split; [assumption | split; [reflexivity | split; [reflexivity |]]].
  all: intros ev Hev raw h'; cbn [In] in Hev; in_cases Hev; split; discriminate.
Qed.

(** C9, as the code has it. On success [liquidate] hands nothing back:
    its value is [None], and the hash of the receipt only goes to the
    console, as the last line; the caller learns of the success from
    the absence of an exception. *)
Theorem liquidate_success :
  forall ca da pk caller user amount (w : World) v,
    res (liquidate E cfg ca da pk caller user amount w) = Ok v ->
    v = PyNone /\
    exists h w' receipt pre,
      fst (wait_for_transaction_receipt E h w') = Ok receipt /\
      trace (liquidate E cfg ca da pk caller user amount w)
      = pre ++ [Rpc (R_wait_receipt h);
                Print (L_tx_hash (hex E (transactionHash receipt)))].
Proof.
  intros ca da pk caller user amount w v.
  unfold liquidate.
  repeat script_step.
  all: script_leaf.
  all: intros Hres; try discriminate Hres.
  injection Hres as <-. split; [reflexivity |].
  eexists _, _, _, (_ :: _ :: _ :: _ :: _ :: _ :: [_]).
  split; [eassumption | reflexivity].
Qed.

Lemma liquidate_events :
  forall ca da pk caller user amount (w : World),
    forallb (liquidate_event amount)
            (trace (liquidate E cfg ca da pk caller user amount w)) = true.
Proof.
  intros. unfold liquidate.
  repeat script_step.
  all: script_leaf.
  all: cbn [forallb liquidate_event lc_debtToCover andb].
  all: rewrite ?Z.eqb_refl; reflexivity.
Qed.

Lemma liquidate_event_attempt amount e :
  liquidate_event amount e = true -> attempt_event amount e = true.
Proof. destruct e as [[] | []]; cbn; congruence. Qed.

Lemma liquidate_event_no_success amount e :
  liquidate_event amount e = true -> is_success e = false.
Proof. destruct e as [[] | []]; cbn; congruence. Qed.

Lemma forallb_impl {A} (f g : A -> bool) l :
  (forall x, f x = true -> g x = true) ->
  forallb f l = true -> forallb g l = true.
Proof.
  intros Hfg H. apply forallb_forall. intros x Hx.
  apply Hfg. revert x Hx. apply forallb_forall. exact H.
Qed.

Lemma liquidate_announces :
  forall ca da pk caller user amount (w : World),
    exists rest,
      trace (liquidate E cfg ca da pk caller user amount w)
      = Print (L_liquidating_user user) :: Print (L_collateral_address ca)
        :: Print (L_debt_address da) :: Print (L_debt_to_cover amount)
        :: rest.
Proof.
  intros. unfold liquidate.
  repeat script_step.
  all: script_leaf.
  all: eexists; reflexivity.
Qed.

(** The attempt, in terms of the run of [liquidate] inside it. *)
Lemma attempt_run :
  forall user ca da amount (w : World),
    let r := liquidate E cfg ca da (LIQUIDATOR_WALLET_PRIVATE_KEY cfg)
               (LIQUIDATOR_WALLET_ADDRESS cfg) user amount w in
    attempt E cfg user ca da amount w
    = match res r with
      | Ok _ => Run (Ok true) (final r) (trace r ++ [Print (L_success user)])
      | Raise e =>
        if is_Exception e then
          match exn_message e with
          | Some m => Run (Ok false) (final r)
                        (trace r ++ [Print L_failed; Print (L_message m)])
          | None => Run (Raise AttributeError) (final r)
                      (trace r ++ [Print L_failed])
          end
        else Run (Raise e) (final r) (trace r)
      end.
Proof.
  intros user ca da amount w. cbv zeta.
  unfold attempt, try_except, bind.
  generalize (liquidate E cfg ca da (LIQUIDATOR_WALLET_PRIVATE_KEY cfg)
                (LIQUIDATOR_WALLET_ADDRESS cfg) user amount w).
  intros [[v | e] w1 t1]; cbn [res final trace print ret raise app].
  - reflexivity.
  - destruct (is_Exception e); [| reflexivity].
    destruct (exn_message e); cbn [res final trace print ret raise app];
      rewrite ?app_nil_r; reflexivity.
Qed.

Lemma attempt_events :
  forall user ca da amount (w : World),
    forallb (attempt_event amount)
            (trace (attempt E cfg user ca da amount w)) = true.
Proof.
  intros. rewrite attempt_run. cbv zeta.
  pose proof (forallb_impl _ _ _ (liquidate_event_attempt amount)
                (liquidate_events ca da (LIQUIDATOR_WALLET_PRIVATE_KEY cfg)
                   (LIQUIDATOR_WALLET_ADDRESS cfg) user amount w)) as H.
  destruct (res _) as [v | e]; [| destruct (is_Exception e);
                                  [destruct (exn_message e) |]];
    cbn [trace]; rewrite ?forallb_app, H; reflexivity.
Qed.

(** An attempt either succeeds, and then the success line is the last
    event and the only one of its kind, or prints no success line. *)
Lemma attempt_shape :
  forall user ca da amount (w : World),
    (res (attempt E cfg user ca da amount w) = Ok true /\
     exists t, trace (attempt E cfg user ca da amount w)
               = t ++ [Print (L_success user)] /\
               existsb is_success t = false) \/
    (res (attempt E cfg user ca da amount w) <> Ok true /\
     existsb is_success (trace (attempt E cfg user ca da amount w)) = false).
Proof.
  intros. rewrite attempt_run. cbv zeta.
  pose proof (liquidate_events ca da (LIQUIDATOR_WALLET_PRIVATE_KEY cfg)
                (LIQUIDATOR_WALLET_ADDRESS cfg) user amount w) as H.
  set (r := liquidate E cfg ca da (LIQUIDATOR_WALLET_PRIVATE_KEY cfg)
              (LIQUIDATOR_WALLET_ADDRESS cfg) user amount w) in *.
  assert (Hn : existsb is_success (trace r) = false).
  { revert H. generalize (trace r).
    induction l as [| x l IH]; cbn; [reflexivity |].
    destruct (liquidate_event amount x) eqn:Hx; cbn; [| discriminate].
    rewrite (liquidate_event_no_success _ _ Hx). exact IH. }
  destruct (res r) as [v | e].
  - left. split; [reflexivity |]. eexists; split; [reflexivity | exact Hn].
  - right. destruct (is_Exception e); [destruct (exn_message e) |];
      cbn [res trace]; (split; [discriminate |]);
      rewrite ?existsb_app, Hn; reflexivity.
Qed.

Lemma attempt_only :
  forall user ca da amount (w : World) e,
    In e (trace (attempt E cfg user ca da amount w)) ->
    attempt_event amount e = true.
Proof.
  intros user ca da amount w e.
  apply (proj1 (forallb_forall _ _) (attempt_events user ca da amount w)).
Qed.

Lemma attempt_announces :
  forall user ca da amount (w : World),
    exists rest,
      trace (attempt E cfg user ca da amount w)
      = Print (L_liquidating_user user) :: Print (L_collateral_address ca)
        :: Print (L_debt_address da) :: Print (L_debt_to_cover amount)
        :: rest.
Proof.
  intros. rewrite attempt_run. cbv zeta.
  destruct (liquidate_announces ca da (LIQUIDATOR_WALLET_PRIVATE_KEY cfg)
              (LIQUIDATOR_WALLET_ADDRESS cfg) user amount w) as [rest H].
  destruct (res _) as [v | e]; [| destruct (is_Exception e);
                                  [destruct (exn_message e) |]];
    cbn [trace]; rewrite H; eexists; reflexivity.
Qed.

End Pipeline.

(** ** The sizing algorithm *)

Lemma float_of_int_1 : float_of_int 1 = Ok f_one.
Proof. reflexivity. Qed.

Lemma float_of_int_100 : float_of_int 100 = Ok f_hundred.
Proof. reflexivity. Qed.

Lemma scale_factor_total bonus fee :
  scale_factor bonus fee = Ok (spec_scale_factor bonus fee).
Proof.
  unfold scale_factor, div_fi, add_if.
  rewrite float_of_int_1, float_of_int_100. reflexivity.
Qed.

Lemma index_inv l i x : index l i = Ok x -> nth_error l i = Some x.
Proof.
  unfold index. destruct (nth_error l i); [| discriminate].
  intros H; injection H as ->; reflexivity.
Qed.

Lemma bonus_of_raw_inv x bonus :
  bonus_of_raw x = Ok bonus ->
  exists q, int_truediv x 100 = Ok q /\ bonus = fsub q f_hundred.
Proof.
  unfold bonus_of_raw, sub_fi. rewrite float_of_int_100.
  destruct (int_truediv x 100) as [q | e]; cbn; [| discriminate].
  intros H; injection H as <-. exists q; split; reflexivity.
Qed.

(** Facts about the steps of a pair, read off the equations left by the
    symbolic execution. *)
Ltac sizing_facts :=
  repeat match goal with
         | H : index _ _ = Ok _ |- _ => apply index_inv in H
         | H : bonus_of_raw _ = Ok _ |- _ =>
           apply bonus_of_raw_inv in H; destruct H as (? & ? & ->)
         | H : scale_factor _ _ = Ok _ |- _ =>
           rewrite scale_factor_total in H; injection H as <-
         | H : fee_of_raw _ = _ |- _ => unfold fee_of_raw in H
         end.

(** An event that no attempt produces is not in the trace of one. *)
Ltac not_in_attempt H :=
  apply attempt_only in H; discriminate H.

(** Membership in a trace that ends with an attempt: one goal for each
    event of the trace that may be the one. *)
Ltac in_trace H :=
  repeat (destruct H as [H | H]; [try discriminate H |]);
  try contradiction;
  try (apply attempt_only in H; cbn [attempt_event] in H;
       try discriminate H).

Ltac here := cbn [In]; repeat first [left; reflexivity | right]; fail.

Section Sizing.

Context {World : Type}.
Variable E : Web3 World.
Variable cfg : Config.

(** C6. Whenever a pair gets as far as printing its scale factor, that
    factor is [1 + bonus * (1 + fee / 100) / 100] in binary64, where [fee]
    is the raw on-chain fee over 100 and [bonus] is field 3 of the reserve
    configuration of the collateral over 100, minus 100. With raw fee
    1000 and raw bonus 10500, that is fee 10 and bonus 5, the factor is the
    double 1.055. *)
Theorem scale_factor_formula :
  (forall user c b (w : World) sf,
     In (Print (L_scale_factor sf))
        (trace (trigger_logic_pair E cfg user c b w)) ->
     exists a feeRaw data x q fee bonus,
       fst (liquidationProtocolFeePercentage E w) = Ok feeRaw /\
       to_checksum_address E (c_contract c) = Ok a /\
       fst (getReserveConfigurationData E a
              (snd (liquidationProtocolFeePercentage E w))) = Ok data /\
       nth_error data 3 = Some x /\
       int_truediv feeRaw 100 = Ok fee /\
       int_truediv x 100 = Ok q /\
       bonus = fsub q f_hundred /\
       sf = spec_scale_factor bonus fee) /\
  (exists five ten,
     bonus_of_raw 10500 = Ok five /\ int_truediv 5 1 = Ok five /\
     fee_of_raw 1000 = Ok ten /\ int_truediv 10 1 = Ok ten /\
     scale_factor five ten = Ok (spec_scale_factor five ten) /\
     int_truediv 1055 1000 = Ok (spec_scale_factor five ten)).
Proof.
  split.
  - intros user c b w sf.
    unfold trigger_logic_pair, partial_repay.
    repeat script_step.
    all: script_leaf.
    all: intros Hin.
    all: repeat (destruct Hin as [Hin | Hin]; [try discriminate Hin |]).
    all: try contradiction.
    all: try (not_in_attempt Hin).
    all: injection Hin as <-.
    all: sizing_facts.
    all: eexists _, _, _, _, _, _, _; repeat split; eauto.
  - eexists _, _. repeat split; vm_compute; reflexivity.
Qed.

(** C7. When the debt's variable fiat amount times the scale factor is
    strictly below the collateral's fiat amount, the pair takes the
    full-repay branch: no [decimals] lookup is made, and the amount
    handed to [liquidate] is [int(totalBorrowedAmount)] of the variable
    debt, as it is. *)
Theorem full_repay_branch :
  forall user c b (w : World) sf dfiat cfiat,
    In (Print (L_scale_factor sf))
       (trace (trigger_logic_pair E cfg user c b w)) ->
    py_float (conv E) (vr_fiatAmount (variableRate b)) = Ok dfiat ->
    py_float (conv E) (fiatAmount c) = Ok cfiat ->
    flt (fmul dfiat sf) cfiat = true ->
    In (Print L_full_debt) (trace (trigger_logic_pair E cfg user c b w)) /\
    ~ In (Print L_partial_debt)
         (trace (trigger_logic_pair E cfg user c b w)) /\
    (forall a, ~ In (Rpc (R_decimals a))
                    (trace (trigger_logic_pair E cfg user c b w))) /\
    (forall n, In (Print (L_debt_to_cover n))
                  (trace (trigger_logic_pair E cfg user c b w)) ->
               py_int (conv E) (vr_totalBorrowedAmount (variableRate b))
               = Ok n) /\
    (forall call p, In (Rpc (R_build call p))
                       (trace (trigger_logic_pair E cfg user c b w)) ->
                    py_int (conv E) (vr_totalBorrowedAmount (variableRate b))
                    = Ok (lc_debtToCover call)) /\
    (forall n, py_int (conv E) (vr_totalBorrowedAmount (variableRate b))
               = Ok n ->
               In (Print (L_debt_to_cover n))
                  (trace (trigger_logic_pair E cfg user c b w))).
Proof.
  intros user c b w sf dfiat cfiat.
  unfold trigger_logic_pair, partial_repay.
  repeat script_step.
  all: script_leaf.
  all: intros Hsf Hd Hc Hlt.
  all: try discriminate Hd; try discriminate Hc.
  all: try (injection Hd as <-); try (injection Hc as <-).
  all: sizing_facts.
  all: repeat (destruct Hsf as [Hsf | Hsf]; [try discriminate Hsf |]).
  all: try contradiction.
  all: try (not_in_attempt Hsf).
  all: injection Hsf as <-.
  all: try congruence.
  all: split; [here |].
  all: split; [intros Hev; in_trace Hev |].
  all: split; [intros ad Hev; in_trace Hev |].
  all: split; [intros n Hev; in_trace Hev |].
  all: try (apply Z.eqb_eq in Hev; subst; reflexivity).
  all: split; [intros call p Hev; in_trace Hev |].
  all: try (apply Z.eqb_eq in Hev; subst; reflexivity).
  all: intros n Hev; try discriminate Hev; injection Hev as <-.
  match goal with
  | |- context [attempt E cfg ?u ?x ?y ?n ?w'] =>
    destruct (attempt_announces E cfg u x y n w') as [rest ->]
  end.
  here.
Qed.

(** C3. When a pair takes the partial-repay branch and reaches
    [liquidate], the amount it hands over is
    [int(int((collateralFiat / oneDebtUSD / scaleFactor) * 10^d) * 1.01)]
    for the printed one-debt-token price and scale factor and the
    decimals [d] of the debt token. For collateralFiat 100, oneDebtUSD 1,
    scaleFactor 1.05 and 18 decimals that is 96190476190476189696. *)
Theorem partial_repay_amount :
  (forall user c b (w : World) n,
     In (Print L_partial_debt)
        (trace (trigger_logic_pair E cfg user c b w)) ->
     In (Print (L_debt_to_cover n))
        (trace (trigger_logic_pair E cfg user c b w)) ->
     exists cfiat dfiat sf u a da d w',
       py_float (conv E) (fiatAmount c) = Ok cfiat /\
       py_float (conv E) (vr_fiatAmount (variableRate b)) = Ok dfiat /\
       In (Print (L_scale_factor sf))
          (trace (trigger_logic_pair E cfg user c b w)) /\
       flt (fmul dfiat sf) cfiat = false /\
       In (Print (L_one_debt_usd u))
          (trace (trigger_logic_pair E cfg user c b w)) /\
       to_checksum_address E (b_contract b) = Ok a /\
       to_checksum_address E a = Ok da /\
       fst (decimals E da w') = Ok d /\
       spec_partial_amount cfiat u sf d = Ok n /\
       (forall call p,
          In (Rpc (R_build call p))
             (trace (trigger_logic_pair E cfg user c b w)) ->
          lc_debtToCover call = n)) /\
  (exists hundred one sf,
     int_truediv 100 1 = Ok hundred /\ int_truediv 1 1 = Ok one /\
     int_truediv 105 100 = Ok sf /\
     spec_partial_amount hundred one sf 18 = Ok 96190476190476189696).
Proof.
  split.
  - intros user c b w n.
    unfold trigger_logic_pair, partial_repay.
    repeat script_step.
    all: script_leaf.
    all: intros Hp Hn.
    all: in_trace Hp.
    all: in_trace Hn.
    all: apply Z.eqb_eq in Hn; subst n.
    all: sizing_facts.
    eexists _, _, _, _, _, _, _, _.
    split; [reflexivity |]. split; [reflexivity |].
    split; [here |]. split; [eassumption |].
    split; [here |]. split; [reflexivity |].
    split; [eassumption |]. split; [eassumption |].
    split.
    + unfold spec_partial_amount.
      repeat match goal with
             | H : ?x = Ok _ |- context [?x] => rewrite H; cbn [rbind]
             end.
      reflexivity.
    + intros call p Hev. in_trace Hev.
      apply Z.eqb_eq in Hev. exact Hev.
  - eexists _, _, _. repeat split; vm_compute; reflexivity.
Qed.

Lemma mul_if_inv n x z :
  mul_if n x = Ok z -> exists f, float_of_int n = Ok f /\ z = fmul f x.
Proof.
  unfold mul_if. destruct (float_of_int n) as [f | e]; cbn; [| discriminate].
  intros H; injection H as <-. exists f. split; reflexivity.
Qed.

(** C5, as the code has it. The amount handed to [liquidate] is not
    checked for its sign. In the full-repay branch it is
    [int(totalBorrowedAmount)], whatever that is; in the partial-repay
    branch it is positive exactly when the truncated base-unit amount
    [int(tokens * 10^d)] is positive. *)
Theorem submitted_amount_sign :
  forall user c b (w : World) n,
    In (Print (L_debt_to_cover n))
       (trace (trigger_logic_pair E cfg user c b w)) ->
    (In (Print L_full_debt) (trace (trigger_logic_pair E cfg user c b w)) /\
     py_int (conv E) (vr_totalBorrowedAmount (variableRate b)) = Ok n) \/
    (In (Print L_partial_debt)
        (trace (trigger_logic_pair E cfg user c b w)) /\
     exists tokens a da d w' y base,
       In (Print (L_debt_to_cover_tokens tokens))
          (trace (trigger_logic_pair E cfg user c b w)) /\
       to_checksum_address E (b_contract b) = Ok a /\
       to_checksum_address E a = Ok da /\
       fst (decimals E da w') = Ok d /\
       mul_fi tokens (pow10 d) = Ok y /\
       int_of_float y = Ok base /\
       (0 < n <-> 0 < base)).
Proof.
  intros user c b w n.
  unfold trigger_logic_pair, partial_repay.
  repeat script_step.
  all: script_leaf.
  all: intros Hn.
  all: in_trace Hn.
  all: apply Z.eqb_eq in Hn; subst n.
  - left. split; [here | reflexivity].
  - right. split; [here |].
    match goal with
    | H : mul_if _ _ = Ok _ |- _ =>
      apply mul_if_inv in H; destruct H as (f & Hf & ->)
    end.
    eexists _, _, _, _, _, _, _.
    split; [here |]. split; [reflexivity |].
    split; [eassumption |]. split; [eassumption |].
    split; [eassumption |]. split; [eassumption |].
    eapply margin_sign; eassumption.
Qed.

End Sizing.

(** ** The loops over debts, collaterals and positions *)

Lemma settled_app_no_success l1 l2 :
  existsb is_success l1 = false -> settled (l1 ++ l2) = settled l2.
Proof.
  induction l1 as [| e l1 IH]; cbn; [reflexivity |].
  destruct (is_success e); cbn; [discriminate | exact IH].
Qed.

Lemma settled_spec t :
  settled t = true ->
  forall pre a post,
    t = pre ++ Print (L_success a) :: post -> forallb quiet post = true.
Proof.
  induction t as [| e t IH]; intros Hs pre a post Heq.
  - destruct pre; discriminate Heq.
  - destruct pre as [| e' pre]; cbn [app] in Heq;
      injection Heq as He Ht; subst e t; cbn [settled is_success] in Hs.
    + exact Hs.
    + destruct (is_success e').
      * rewrite forallb_app in Hs. apply andb_prop in Hs as [_ Hs].
        cbn in Hs. discriminate Hs.
      * eapply IH; [exact Hs | reflexivity].
Qed.

Lemma shape_cons e l s :
  is_success e = false ->
  (exists t, l = t ++ [s] /\ existsb is_success t = false) ->
  exists t, e :: l = t ++ [s] /\ existsb is_success t = false.
Proof.
  intros He (t & -> & Ht). exists (e :: t). cbn. rewrite He, Ht.
  split; reflexivity.
Qed.

(** ** Zero-debt pairs anywhere in a run *)

Lemma scan_spec K t :
  forall st pre b mid post,
    t = pre ++ Print (L_debt b) :: mid ++ Print L_partial_debt :: post ->
    existsb is_debt_line mid = false ->
    zero_total K b = true ->
    scan K st t <> Bad ->
    scan K st t = Hit /\
    forallb sizing_event mid = true /\
    forallb is_decimals post = true.
Proof.
  assert (A : forall mid c post,
             existsb is_debt_line mid = false ->
             scan K (Some c) (mid ++ Print L_partial_debt :: post) <> Bad ->
             scan K (Some c) (mid ++ Print L_partial_debt :: post) = Hit /\
             c = true /\
             forallb sizing_event mid = true /\
             forallb is_decimals post = true).
  { induction mid as [| x mid IH]; intros c post Hn Hs.
    - cbn [app scan] in *.
      destruct (c && forallb is_decimals post) eqn:Hc; [| congruence].
      apply andb_prop in Hc as [-> Hp]. repeat split; assumption.
    - cbn [existsb] in Hn. apply orb_false_elim in Hn as [Hx Hn].
      destruct x as [[] | []]; try discriminate Hx;
        cbn [app scan option_map sizing_event forallb] in *;
        rewrite ?andb_true_r, ?andb_false_r in *;
        try (destruct (IH _ _ Hn Hs) as (H1 & H2 & H3 & H4);
             first [discriminate H2 | repeat split; assumption]).
      rewrite forallb_app in Hs. cbn in Hs.
      rewrite !andb_false_r in Hs. congruence. }
  induction t as [| x t IH]; intros st pre b mid post Heq Hn Hz Hs.
  - destruct pre; discriminate Heq.
  - destruct pre as [| y pre]; cbn [app] in Heq; injection Heq as -> ->.
    + cbn [scan] in *. rewrite Hz in *.
      destruct (A mid true post Hn Hs) as (H1 & _ & H3 & H4).
      repeat split; assumption.
    + assert (Hd : existsb is_debt_line
                     (pre ++ Print (L_debt b) :: mid
                          ++ Print L_partial_debt :: post) = true).
      { rewrite existsb_app. cbn. apply orb_true_r. }
      assert (Hf : forallb is_decimals
                     (pre ++ Print (L_debt b) :: mid
                          ++ Print L_partial_debt :: post) = false).
      { rewrite forallb_app. cbn. apply andb_false_r. }
      destruct y as [[] | []];
        cbn [scan] in *;
        try (eapply IH; [reflexivity | assumption | assumption | exact Hs]).
      destruct st as [c |].
      * rewrite Hf, andb_false_r in Hs. congruence.
      * eapply IH; [reflexivity | assumption | assumption | exact Hs].
Qed.

Lemma scan_app K t1 t2 :
  forall st,
    scan K st (t1 ++ t2)
    = match scan K st t1 with
      | Open st' => scan K st' t2
      | Hit => if forallb is_decimals t2 then Hit else Bad
      | Bad => Bad
      end.
Proof.
  induction t1 as [| x t1 IH]; intros st; [reflexivity |].
  destruct x as [[] | []]; cbn [app scan]; try apply IH.
  destruct st as [c |]; [| apply IH].
  rewrite forallb_app.
  destruct c; cbn [andb]; [| reflexivity].
  destruct (forallb is_decimals t1); reflexivity.
Qed.

(** A trace without the partial-repay line leaves the reading open. *)
Lemma scan_open K t :
  (forall e, In e t -> e <> Print L_partial_debt) ->
  forall st, exists st', scan K st t = Open st'.
Proof.
  induction t as [| x t IH]; intros Hn st; [exists st; reflexivity |].
  assert (Ht : forall e, In e t -> e <> Print L_partial_debt)
    by (intros e He; apply Hn; right; exact He).
  assert (Hx : x <> Print L_partial_debt) by (apply Hn; left; reflexivity).
  destruct x as [[] | []]; cbn [scan]; try apply (IH Ht).
  congruence.
Qed.

Lemma zero_total_inv K b :
  zero_total K b = true ->
  py_int K (vr_totalBorrowedAmount (variableRate b)) = Ok 0.
Proof.
  unfold zero_total.
  destruct (py_int K (vr_totalBorrowedAmount (variableRate b))) as [[| |] |];
    (reflexivity || discriminate).
Qed.

Lemma zero_total_intro K b :
  py_int K (vr_totalBorrowedAmount (variableRate b)) = Ok 0 ->
  zero_total K b = true.
Proof. unfold zero_total. intros ->. reflexivity. Qed.

Lemma scan_debt K st b t :
  scan K st (Print (L_debt b) :: t)
  = scan K (if zero_total K b then Some true else None) t.
Proof. reflexivity. Qed.

Lemma attempt_event_no_partial amount e :
  attempt_event amount e = true -> e <> Print L_partial_debt.
Proof. intros H ->. discriminate H. Qed.

Section Orchestrator.

Context {World : Type}.
Variable E : Web3 World.
Variable cfg : Config.

Lemma attempt_event_pair amount e :
  attempt_event amount e = true -> pair_event e = true.
Proof. destruct e as [[] | []]; cbn; congruence. Qed.

Lemma pair_events user c b (w : World) :
  forallb pair_event (trace (trigger_logic_pair E cfg user c b w)) = true.
Proof.
  unfold trigger_logic_pair, partial_repay.
  repeat script_step.
  all: script_leaf.
  all: cbn [forallb pair_event andb].
  all: try reflexivity.
  all: eapply forallb_impl; [apply attempt_event_pair | apply attempt_events].
Qed.

(** A pair either breaks out of the loop, with its success line as its
    last event, or prints no success line at all. *)
Lemma pair_shape user c b (w : World) :
  (res (trigger_logic_pair E cfg user c b w) = Ok true /\
   exists t, trace (trigger_logic_pair E cfg user c b w)
             = t ++ [Print (L_success user)] /\
             existsb is_success t = false) \/
  (res (trigger_logic_pair E cfg user c b w) <> Ok true /\
   existsb is_success (trace (trigger_logic_pair E cfg user c b w)) = false).
Proof.
  unfold trigger_logic_pair, partial_repay.
  repeat script_step.
  all: script_leaf.
  all: try (right; split; [discriminate | reflexivity]).
  all: match goal with
       | |- context [attempt E cfg ?u ?x ?y ?n ?w'] =>
         destruct (attempt_shape E cfg u x y n w')
           as [(Hr & t & Ht & Hn) | (Hr & Hn)]
       end.
  all: try (left; split; [exact Hr |];
            repeat (apply shape_cons; [reflexivity |]);
            exists t; split; [exact Ht | exact Hn]).
  all: right; split; [exact Hr | exact Hn].
Qed.

Lemma debts_shape user c bs (w : World) :
  (res (trigger_logic_debts E cfg user c bs w) = Ok true /\
   exists t, trace (trigger_logic_debts E cfg user c bs w)
             = t ++ [Print (L_success user)] /\
             existsb is_success t = false) \/
  (res (trigger_logic_debts E cfg user c bs w) <> Ok true /\
   existsb is_success (trace (trigger_logic_debts E cfg user c bs w)) = false).
Proof.
  revert w. induction bs as [| b bs IH]; intros w.
  - right. split; [discriminate | reflexivity].
  - cbn [trigger_logic_debts]. rewrite res_bind, trace_bind.
    destruct (pair_shape user c b w) as [(Hr & t & Ht & Hn) | (Hr & Hn)].
    + rewrite Hr. cbn [ret res trace]. left. split; [reflexivity |].
      exists t. rewrite app_nil_r. split; assumption.
    + destruct (res (trigger_logic_pair E cfg user c b w)) as [[|] | e].
      * congruence.
      * destruct (IH (final (trigger_logic_pair E cfg user c b w)))
          as [(Hr' & t' & Ht' & Hn') | (Hr' & Hn')].
        -- left. split; [exact Hr' |]. rewrite Ht'.
           exists (trace (trigger_logic_pair E cfg user c b w) ++ t').
           rewrite app_assoc, existsb_app, Hn, Hn'. split; reflexivity.
        -- right. split; [exact Hr' |].
           rewrite existsb_app, Hn, Hn'. reflexivity.
      * right. split; [discriminate |]. rewrite app_nil_r. exact Hn.
Qed.

Lemma debts_events user c bs (w : World) :
  forallb pair_event (trace (trigger_logic_debts E cfg user c bs w)) = true.
Proof.
  revert w. induction bs as [| b bs IH]; intros w; [reflexivity |].
  cbn [trigger_logic_debts]. rewrite trace_bind, forallb_app, pair_events.
  destruct (res (trigger_logic_pair E cfg user c b w)) as [[|] | e];
    [reflexivity | apply IH | reflexivity].
Qed.

(** The loop over the collaterals, one iteration unfolded. *)
Lemma collaterals_cons user debts done c cs (w : World) :
  trigger_logic_collaterals E cfg user debts done (c :: cs) w
  = prepend (Print L_new_liquidation)
      (prepend (Print (L_collateral c))
         match py_float (conv E) (fiatAmount c) with
         | Ok v =>
           if flt_int v 1 then
             prepend (Print L_skipping)
               (trigger_logic_collaterals E cfg user debts done cs w)
           else if done then Run (Ok tt) w []
           else bind (trigger_logic_debts E cfg user c debts)
                  (fun done' =>
                     trigger_logic_collaterals E cfg user debts done' cs) w
         | Raise e => Run (Raise e) w []
         end).
Proof.
  cbn [trigger_logic_collaterals].
  rewrite !bind_print, bind_lift.
  destruct (py_float (conv E) (fiatAmount c)) as [v | e]; [| reflexivity].
  destruct (flt_int v 1); [rewrite bind_print; reflexivity |].
  destruct done; reflexivity.
Qed.

(** Once [done] is set, the loop only scans: it prints the banner and
    the collateral, skips the small ones and stops at the first other. *)
Lemma collaterals_done_quiet user debts cs (w : World) :
  forallb quiet
    (trace (trigger_logic_collaterals E cfg user debts true cs w)) = true.
Proof.
  induction cs as [| c cs IH]; [reflexivity |].
  rewrite collaterals_cons. rewrite !trace_prepend. cbn [forallb quiet andb].
  destruct (py_float (conv E) (fiatAmount c)) as [v | e]; [| reflexivity].
  destruct (flt_int v 1); [| reflexivity].
  rewrite trace_prepend. cbn [forallb quiet andb]. exact IH.
Qed.

Lemma collaterals_settled user debts cs (w : World) :
  settled (trace (trigger_logic_collaterals E cfg user debts false cs w))
  = true.
Proof.
  revert w. induction cs as [| c cs IH]; intros w; [reflexivity |].
  rewrite collaterals_cons. rewrite !trace_prepend. cbn [settled is_success].
  destruct (py_float (conv E) (fiatAmount c)) as [v | e]; [| reflexivity].
  destruct (flt_int v 1).
  { rewrite trace_prepend. cbn [settled is_success]. apply IH. }
  rewrite trace_bind.
  destruct (debts_shape user c debts w) as [(Hr & t & Ht & Hn) | (Hr & Hn)].
  - rewrite Hr, Ht, <- app_assoc.
    rewrite settled_app_no_success by exact Hn.
    cbn [app settled is_success]. apply collaterals_done_quiet.
  - rewrite settled_app_no_success by exact Hn.
    destruct (res (trigger_logic_debts E cfg user c debts w)) as [[|] | e];
      [congruence | apply IH | reflexivity].
Qed.

(** C4. In the trace of one position, whatever follows a success line
    is scanning only: the banner, the collateral, the skip line. No debt
    is evaluated, no remote call is made and no further attempt starts;
    in particular there is no second success line. *)
Theorem one_liquidation_per_position :
  forall p (w : World) pre a post,
    trace (trigger_logic_position E cfg p w)
    = pre ++ Print (L_success a) :: post ->
    forallb quiet post = true /\
    existsb is_success pre = false /\
    (forall e, In e post ->
       pair_event e = false /\ is_success e = false /\
       forall q, e <> Rpc q).
Proof.
  intros p w pre a post Heq.
  assert (Hs : settled (trace (trigger_logic_position E cfg p w)) = true).
  { unfold trigger_logic_position. rewrite bind_print, trace_prepend.
    cbn [settled is_success]. apply collaterals_settled. }
  pose proof (settled_spec _ Hs _ _ _ Heq) as Hq.
  split; [exact Hq |]. split.
  - rewrite Heq in Hs. clear Heq.
    induction pre as [| e pre IH]; [reflexivity |].
    cbn in Hs |- *. destruct (is_success e) eqn:He; cbn.
    + rewrite forallb_app in Hs. apply andb_prop in Hs as [_ Hs].
      cbn in Hs. discriminate Hs.
    + apply IH. exact Hs.
  - intros e He.
    pose proof (proj1 (forallb_forall _ _) Hq e He) as Hqe.
    destruct e as [[] | []]; cbn in Hqe; try discriminate Hqe;
      repeat split; intros; discriminate.
Qed.

(** Only the collaterals of the position are scanned. *)
Lemma collaterals_scanned user debts done cs (w : World) c :
  In (Print (L_collateral c))
     (trace (trigger_logic_collaterals E cfg user debts done cs w)) ->
  In c cs.
Proof.
  revert done w. induction cs as [| c0 cs IH]; intros done w.
  - intros [].
  - rewrite collaterals_cons. rewrite !trace_prepend.
    intros [H | [H | H]]; [discriminate H | injection H as ->; left; reflexivity |].
    right.
    destruct (py_float (conv E) (fiatAmount c0)) as [v | e]; [| destruct H].
    destruct (flt_int v 1).
    { rewrite trace_prepend in H. destruct H as [H | H]; [discriminate H |].
      exact (IH _ _ H). }
    destruct done; [destruct H |].
    rewrite trace_bind in H. apply in_app_or in H as [H | H].
    + pose proof (proj1 (forallb_forall _ _)
                    (debts_events user c0 debts w) _ H) as Hp.
      discriminate Hp.
    + destruct (res (trigger_logic_debts E cfg user c0 debts w));
        [exact (IH _ _ H) | destruct H].
Qed.

(** C8. A collateral whose fiat amount is below 1 is passed over with
    three console lines and nothing else: no remote call, no sizing, no
    attempt, whatever the debts and whatever [done]; the loop goes on
    with the next collateral in the same world. And a collateral is only
    ever scanned if it is a supplied asset with [isCollateral == True]. *)
Theorem dust_and_non_collateral_skipped :
  (forall user debts done c cs (w : World) v,
     py_float (conv E) (fiatAmount c) = Ok v ->
     flt_int v 1 = true ->
     trigger_logic_collaterals E cfg user debts done (c :: cs) w
     = prepend (Print L_new_liquidation)
         (prepend (Print (L_collateral c))
            (prepend (Print L_skipping)
               (trigger_logic_collaterals E cfg user debts done cs w)))) /\
  (forall p (w : World) c,
     In (Print (L_collateral c)) (trace (trigger_logic_position E cfg p w)) ->
     In c (supliedAssets p) /\ eq_True (isCollateral c) = true).
Proof.
  split.
  - intros user debts done c cs w v Hv Hlt.
    rewrite collaterals_cons, Hv, Hlt. reflexivity.
  - intros p w c. unfold trigger_logic_position.
    rewrite bind_print, trace_prepend.
    intros [H | H]; [discriminate H |].
    apply collaterals_scanned in H. apply filter_In in H. exact H.
Qed.

(** An error raised by a pair is not caught by the loop over the debts:
    the loop stops there, with the same error, world and trace. *)
Lemma debts_raise user c b bs (w : World) e :
  res (trigger_logic_pair E cfg user c b w) = Raise e ->
  trigger_logic_debts E cfg user c (b :: bs) w
  = trigger_logic_pair E cfg user c b w.
Proof.
  intros H. cbn [trigger_logic_debts]. unfold bind. rewrite H.
  rewrite <- H. apply run_eta.
Qed.

(** Nor is it caught by the loops around: a collateral that is scanned
    with [done] unset hands on the error of its debts, and a position the
    error of its collaterals. *)
Lemma collaterals_raise user debts c cs (w : World) v e :
  py_float (conv E) (fiatAmount c) = Ok v ->
  flt_int v 1 = false ->
  res (trigger_logic_debts E cfg user c debts w) = Raise e ->
  res (trigger_logic_collaterals E cfg user debts false (c :: cs) w)
  = Raise e.
Proof.
  intros Hv Hlt He. rewrite collaterals_cons, Hv, Hlt.
  rewrite !res_prepend, res_bind, He. reflexivity.
Qed.

Lemma positions_raise p ps (w : World) e :
  res (trigger_logic_position E cfg p w) = Raise e ->
  res (trigger_logic_positions E cfg (p :: ps) w) = Raise e.
Proof.
  intros He. cbn [trigger_logic_positions]. rewrite res_bind, He.
  reflexivity.
Qed.

(** *** A zero-debt pair, wherever it stands in the run *)

Lemma stops_open {A} (r : run World A) st :
  (forall e, In e (trace r) -> e <> Print L_partial_debt) ->
  stops_at_zero_debt E st r.
Proof.
  intros H. destruct (scan_open (conv E) _ H st) as [st' Hs].
  unfold stops_at_zero_debt. rewrite Hs. split; [discriminate |].
  intros Hh; discriminate Hh.
Qed.

(** The invariant goes through a sequence: an error of the first part
    ends the sequence, nothing is added to the trace. *)
Lemma stops_bind {A B} (m : M World A) (k : A -> M World B) w st :
  stops_at_zero_debt E st (m w) ->
  (forall a st', res (m w) = Ok a ->
                 stops_at_zero_debt E st' (k a (final (m w)))) ->
  stops_at_zero_debt E st (bind m k w).
Proof.
  unfold stops_at_zero_debt. intros [Hm1 Hm2] Hk.
  rewrite trace_bind, res_bind, scan_app.
  destruct (scan (conv E) st (trace (m w))) as [st' | |].
  - destruct (res (m w)) as [a | e].
    + apply Hk. reflexivity.
    + cbn [scan]. split; [discriminate |]. intros Hh; discriminate Hh.
  - destruct (Hm2 eq_refl) as (e & He & Hc). rewrite He. cbn [forallb].
    split; [discriminate |]. intros _. exists e. split; [reflexivity | exact Hc].
  - contradiction Hm1. reflexivity.
Qed.

Lemma stops_print l (w : World) st :
  l <> L_partial_debt -> stops_at_zero_debt E st (print l w).
Proof.
  intros Hl. apply stops_open. cbn. intros e [<- | []] H.
  injection H as ->. contradiction Hl. reflexivity.
Qed.

Lemma stops_ret {A} (a : A) (w : World) st :
  stops_at_zero_debt E st (ret a w).
Proof. apply stops_open. intros e []. Qed.

Lemma stops_attempt user ca da amount (w : World) st :
  stops_at_zero_debt E st (attempt E cfg user ca da amount w).
Proof.
  apply stops_open. intros e He.
  apply attempt_only in He. eapply attempt_event_no_partial. exact He.
Qed.

(** One pair. After its debt line the pair prints and queries what the
    sizing needs; in the partial-repay branch of a zero-debt pair it then
    raises, having done nothing more than the [decimals] query. *)
Lemma pair_stops user c b (w : World) st :
  stops_at_zero_debt E st (trigger_logic_pair E cfg user c b w).
Proof.
  unfold stops_at_zero_debt.
  pose proof (zero_total_inv (conv E) b) as Hz. revert Hz.
  unfold trigger_logic_pair, partial_repay.
  repeat script_step.
  all: script_leaf.
  all: rewrite scan_debt.
  all: intros Hz.
  all: destruct (zero_total (conv E) b);
    [specialize (Hz eq_refl) | clear Hz].
  all: try discriminate Hz; try (injection Hz as ->).
  all: repeat match goal with
       | H : int_truediv 0 (pow10 _) = _ |- _ =>
         rewrite int_truediv_zero in H;
         first [discriminate H | injection H as <-]
       | H : fdiv _ (S754_zero false) = _ |- _ =>
         cbv [fdiv is_zero] in H;
         first [discriminate H | injection H as <-]
       end.
  all: cbn [scan option_map andb sizing_event forallb is_decimals].
  all: try (split; [discriminate | intros Hh; discriminate Hh]).
  all: try (split; [discriminate |]; intros _; eexists;
            split; [reflexivity |];
            first [left; reflexivity
                  | right; left; eexists; eassumption
                  | right; right; eexists _, _; eassumption]).
  all: match goal with
       | |- context [attempt E cfg ?u ?x ?y ?n ?w'] =>
         apply (stops_attempt u x y n w')
       end.
Qed.

Lemma debts_stop user c bs (w : World) st :
  stops_at_zero_debt E st (trigger_logic_debts E cfg user c bs w).
Proof.
  revert w st. induction bs as [| b bs IH]; intros w st.
  - apply stops_ret.
  - cbn [trigger_logic_debts]. apply stops_bind; [apply pair_stops |].
    intros [|] st' _; [apply stops_ret | apply IH].
Qed.

Lemma collaterals_stop user debts done cs (w : World) st :
  stops_at_zero_debt E st
    (trigger_logic_collaterals E cfg user debts done cs w).
Proof.
  revert done w st. induction cs as [| c cs IH]; intros done w st.
  - apply stops_ret.
  - cbn [trigger_logic_collaterals].
    apply stops_bind; [apply stops_print; discriminate |]. intros _ st1 _.
    apply stops_bind; [apply stops_print; discriminate |]. intros _ st2 _.
    apply stops_bind; [apply stops_open; intros e [] |]. intros v st3 _.
    destruct (flt_int v 1).
    + apply stops_bind; [apply stops_print; discriminate |]. intros _ st4 _.
      apply IH.
    + destruct done; [apply stops_ret |].
      apply stops_bind; [apply debts_stop |]. intros done' st4 _. apply IH.
Qed.

Lemma position_stops p (w : World) st :
  stops_at_zero_debt E st (trigger_logic_position E cfg p w).
Proof.
  unfold trigger_logic_position.
  apply stops_bind; [apply stops_print; discriminate |]. intros _ st1 _.
  apply collaterals_stop.
Qed.

Lemma positions_stop ps (w : World) st :
  stops_at_zero_debt E st (trigger_logic_positions E cfg ps w).
Proof.
  revert w st. induction ps as [| p ps IH]; intros w st.
  - apply stops_ret.
  - cbn [trigger_logic_positions].
    apply stops_bind; [apply position_stops |]. intros _ st1 _. apply IH.
Qed.

Lemma run_stops (w : World) st :
  stops_at_zero_debt E st (trigger_logic E cfg w).
Proof.
  unfold trigger_logic.
  apply stops_bind.
  { apply stops_open. unfold rpc.
    destruct (getLiquidatablePositions E w) as [r w']. cbn.
    intros e [<- | []]. discriminate. }
  intros ps st1 _. destruct ps as [| p ps].
  - apply stops_bind; [apply stops_print; discriminate |]. intros _ st2 _.
    apply stops_open. intros e [].
  - apply stops_bind; [apply stops_print; discriminate |]. intros _ st2 _.
    apply stops_bind; [apply positions_stop |]. intros _ st3 _.
    apply stops_print. discriminate.
Qed.

(** A pair that reaches the partial-repay branch has printed its debt
    line, then the sizing lines and queries, then the branch line. *)
Lemma pair_partial_shape user c b (w : World) :
  In (Print L_partial_debt) (trace (trigger_logic_pair E cfg user c b w)) ->
  exists mid post,
    trace (trigger_logic_pair E cfg user c b w)
    = Print (L_debt b) :: mid ++ Print L_partial_debt :: post /\
    forallb sizing_event mid = true /\
    existsb is_debt_line mid = false.
Proof.
  unfold trigger_logic_pair, partial_repay.
  repeat script_step.
  all: script_leaf.
  all: intros Hp.
  all: in_trace Hp.
  all: eexists [_; _; _; _; _; _; _], _.
  all: split; [reflexivity | split; reflexivity].
Qed.

(** C2, as the code has it. With [int(totalBorrowedAmount) = 0] in the
    partial-repay branch the pair raises before any attempt starts: once
    the [decimals] lookup has answered, the error is [ZeroDivisionError],
    from the one-debt-token price. It is raised outside the [try], so
    nothing is logged as a failure and the loop over the debts ends with
    the same error: no later candidate is evaluated. The loops over the
    collaterals and the positions hand the error on as well.

    This holds wherever the pair stands. A pair that reaches the branch
    leaves its debt line, the sizing events and the branch line in the
    trace; and when the trace of a whole run shows these for a debt whose
    total is zero, after whatever came before (other positions, skipped
    collaterals, earlier debts with their failed attempts), then the run
    has raised, for the same causes, and nothing follows the branch line
    but the [decimals] query: no attempt, no failure line, no later
    candidate, no closing banner. *)
Theorem zero_debt_partial_raises :
  (forall user c b (w : World),
     py_int (conv E) (vr_totalBorrowedAmount (variableRate b)) = Ok 0 ->
     In (Print L_partial_debt)
        (trace (trigger_logic_pair E cfg user c b w)) ->
     exists e,
       res (trigger_logic_pair E cfg user c b w) = Raise e /\
       (e = ZeroDivisionError \/
        (exists a, to_checksum_address E a = Raise e) \/
        (exists a w', fst (decimals E a w') = Raise e)) /\
       (forall n, ~ In (Print (L_debt_to_cover n))
                       (trace (trigger_logic_pair E cfg user c b w))) /\
       ~ In (Print L_failed) (trace (trigger_logic_pair E cfg user c b w)) /\
       (forall bs, trigger_logic_debts E cfg user c (b :: bs) w
                   = trigger_logic_pair E cfg user c b w) /\
       (forall bs cs v p ps,
          py_float (conv E) (fiatAmount c) = Ok v ->
          flt_int v 1 = false ->
          address p = user ->
          borrowedAssets p = b :: bs ->
          filter (fun asset => eq_True (isCollateral asset)) (supliedAssets p)
          = c :: cs ->
          res (trigger_logic_positions E cfg (p :: ps) w) = Raise e)) /\
  (forall user c b (w : World),
     In (Print L_partial_debt)
        (trace (trigger_logic_pair E cfg user c b w)) ->
     exists mid post,
       trace (trigger_logic_pair E cfg user c b w)
       = Print (L_debt b) :: mid ++ Print L_partial_debt :: post /\
       forallb sizing_event mid = true /\
       existsb is_debt_line mid = false) /\
  (forall (w0 : World) b pre mid post,
     trace (trigger_logic E cfg w0)
     = pre ++ Print (L_debt b) :: mid ++ Print L_partial_debt :: post ->
     existsb is_debt_line mid = false ->
     py_int (conv E) (vr_totalBorrowedAmount (variableRate b)) = Ok 0 ->
     exists e,
       res (trigger_logic E cfg w0) = Raise e /\
       (e = ZeroDivisionError \/
        (exists a, to_checksum_address E a = Raise e) \/
        (exists a w', fst (decimals E a w') = Raise e)) /\
       forallb sizing_event mid = true /\
       (forall x, In x post -> exists a, x = Rpc (R_decimals a))).
Proof.
  split; [| split].
  - intros user c b w Hz Hp.
    assert (H : exists e,
               res (trigger_logic_pair E cfg user c b w) = Raise e /\
               (e = ZeroDivisionError \/
                (exists a, to_checksum_address E a = Raise e) \/
                (exists a w', fst (decimals E a w') = Raise e)) /\
               (forall n, ~ In (Print (L_debt_to_cover n))
                               (trace (trigger_logic_pair E cfg user c b w))) /\
               ~ In (Print L_failed)
                    (trace (trigger_logic_pair E cfg user c b w))).
    { revert Hz Hp.
      unfold trigger_logic_pair, partial_repay.
      repeat script_step.
      all: script_leaf.
      all: intros Hz Hp.
      all: try discriminate Hz; try (injection Hz as ->).
      all: in_trace Hp.
      all: repeat match goal with
           | H : int_truediv 0 (pow10 _) = _ |- _ =>
             rewrite int_truediv_zero in H;
             first [discriminate H | injection H as <-]
           | H : fdiv _ (S754_zero false) = _ |- _ =>
             cbv [fdiv is_zero] in H;
             first [discriminate H | injection H as <-]
           end.
      all: eexists; split; [reflexivity |].
      all: split; [first [left; reflexivity
                         | right; left; eexists; eassumption
                         | right; right; eexists _, _; eassumption] |].
      all: split; [intros n Hev; in_trace Hev | intros Hev; in_trace Hev]. }
    destruct H as (e & Hr & He & Hn & Hf).
    exists e. split; [exact Hr |]. split; [exact He |].
    split; [exact Hn |]. split; [exact Hf |]. split.
    + intros bs. eapply debts_raise. exact Hr.
    + intros bs cs v p ps Hv Hlt Hu Hb Hc.
      apply positions_raise. unfold trigger_logic_position.
      rewrite bind_print, res_prepend, Hu, Hb, Hc.
      apply (collaterals_raise _ _ _ _ _ v); try assumption.
      rewrite (debts_raise _ _ _ _ _ e Hr). exact Hr.
  - apply pair_partial_shape.
  - intros w0 b pre mid post Heq Hn Hz.
    destruct (run_stops w0 None) as [H1 H2].
    destruct (scan_spec (conv E) _ None pre b mid post Heq Hn
                (zero_total_intro _ _ Hz) H1) as (Hh & Hm & Hp).
    destruct (H2 Hh) as (e & He & Hc).
    exists e. split; [exact He |]. split; [exact Hc |].
    split; [exact Hm |]. intros x Hx.
    pose proof (proj1 (forallb_forall _ _) Hp x Hx) as Hd.
    destruct x as [l | [] ]; try discriminate Hd.
    eexists; reflexivity.
Qed.

End Orchestrator.

(** ** More on the execution pipeline *)

Lemma count_app f t1 t2 : count f (t1 ++ t2) = (count f t1 + count f t2)%nat.
Proof. unfold count. rewrite filter_app, length_app. reflexivity. Qed.

Lemma count_cons f e t :
  count f (e :: t) = ((if f e then 1 else 0) + count f t)%nat.
Proof. unfold count. cbn [filter]. destruct (f e); reflexivity. Qed.

Lemma count_nil f : count f [] = 0%nat.
Proof. reflexivity. Qed.

Lemma count_zero f g t :
  forallb g t = true -> (forall e, g e = true -> f e = false) ->
  count f t = 0%nat.
Proof.
  intros Hg Hfg. induction t as [| e t IH]; [reflexivity |].
  cbn in Hg. apply andb_prop in Hg as [He Ht].
  rewrite count_cons, (Hfg e He), (IH Ht). reflexivity.
Qed.

Section Calls.

Context {World : Type}.
Variable E : Web3 World.
Variable cfg : Config.

(** X2. One call of [liquidate] does a prefix of one fixed sequence of
    nine events: the four announcement lines, the nonce query, the
    build, the submission, the wait, the hash line. It always prints the
    four lines, and it returns exactly when it went through all nine. *)
Theorem liquidate_fixed_sequence :
  forall ca da pk caller user amount (w : World),
  exists k call p raw h shown,
    trace (liquidate E cfg ca da pk caller user amount w)
    = firstn k (liquidate_sequence user ca da amount caller call p
                  raw h shown) /\
    (4 <= k <= 9)%nat /\
    (k = 9%nat <-> exists v, res (liquidate E cfg ca da pk caller user
                                    amount w) = Ok v).
Proof.
  intros. unfold liquidate.
  repeat script_step.
  all: script_leaf.
  all: unfold liquidate_sequence.
  1: exists 9%nat.
  2: exists 8%nat.
  3: exists 7%nat.
  4: exists 6%nat.
  5: exists 6%nat.
  6: exists 5%nat.
  7-9: exists 4%nat.
  all: cbn [firstn].
  all: eexists _, _, _, _, _.
  all: (split; [reflexivity |]; split; [lia |]).
  all: split; [intros Hk; try discriminate Hk; eexists; reflexivity
              | intros [v Hv]; try discriminate Hv; reflexivity].
  Unshelve.
  all: first [exact EmptyString
             | exact (Build_TxParams 0 EmptyString 0)
             | exact (Build_LiquidateCall EmptyString 0 EmptyString
                        EmptyString [])].
Qed.

(** The addresses of a built call, read off lines 217-223. *)
Lemma liquidate_build_inv :
  forall ca da pk caller user amount (w : World) call p,
    In (Rpc (R_build call p))
       (trace (liquidate E cfg ca da pk caller user amount w)) ->
    to_checksum_address E da = Ok (lc_debt call) /\
    to_checksum_address E ca = Ok (lc_collateral call) /\
    to_checksum_address E user = Ok (lc_user call).
Proof.
  intros ca da pk caller user amount w call p.
  unfold liquidate.
  repeat script_step.
  all: script_leaf.
  all: intros Hin; cbn [In] in Hin; in_cases Hin.
  all: cbn [lc_debt lc_collateral lc_user].
  all: repeat split; reflexivity.
Qed.

(** X3. The call that [liquidate] has built: debt, collateral and
    borrower are the checksummed arguments, the asset list is collateral
    then debt, the amount is the one given, and the transaction is sent
    from [caller] on [CHAIN_ID] with the nonce the node reported. *)
Theorem liquidate_call_shape :
  forall ca da pk caller user amount (w : World) call p,
    In (Rpc (R_build call p))
       (trace (liquidate E cfg ca da pk caller user amount w)) ->
    to_checksum_address E da = Ok (lc_debt call) /\
    to_checksum_address E ca = Ok (lc_collateral call) /\
    to_checksum_address E user = Ok (lc_user call) /\
    lc_assets call = [lc_collateral call; lc_debt call] /\
    lc_debtToCover call = amount /\
    tp_chainId p = CHAIN_ID cfg /\
    tp_from p = caller /\
    fst (get_transaction_count E caller w) = Ok (tp_nonce p).
Proof.
  intros ca da pk caller user amount w call p.
  unfold liquidate.
  repeat script_step.
  all: script_leaf.
  all: intros Hin; cbn [In] in Hin; in_cases Hin.
  all: cbn [lc_debt lc_collateral lc_user lc_assets lc_debtToCover
            tp_chainId tp_from tp_nonce].
  all: repeat split; reflexivity.
Qed.

(** X4. What [liquidate] submits is the raw bytes of the signature,
    under the key [pk], of the transaction the node built from the call;
    nothing is submitted that was not built and signed first. *)
Theorem only_signed_bytes_submitted :
  forall ca da pk caller user amount (w : World) raw,
    In (Rpc (R_send_raw raw))
       (trace (liquidate E cfg ca da pk caller user amount w)) ->
    exists call p tx signed,
      In (Rpc (R_build call p))
         (trace (liquidate E cfg ca da pk caller user amount w)) /\
      fst (build_transaction E call p
             (snd (get_transaction_count E caller w))) = Ok tx /\
      sign_transaction E tx pk = Ok signed /\
      raw = rawTransaction signed.
Proof.
  intros ca da pk caller user amount w raw.
  unfold liquidate.
  repeat script_step.
  all: script_leaf.
  all: intros Hin; cbn [In] in Hin; in_cases Hin.
  all: eexists _, _, _, _.
  all: (split; [cbn [In]; repeat first [left; reflexivity | right] |]).
  all: (split; [eassumption |]); split; [eassumption | reflexivity].
Qed.

End Calls.

(** ** Counting over the loops *)

Ltac count_simpl :=
  repeat first [rewrite count_app | rewrite count_cons | rewrite count_nil];
  cbn [is_send is_attempt is_fee_query is_reserve_query is_success].

Lemma settled_count t : settled t = true -> (count is_success t <= 1)%nat.
Proof.
  induction t as [| e t IH]; cbn [settled]; intros H; [cbn; lia |].
  rewrite count_cons. destruct (is_success e).
  - rewrite (count_zero is_success quiet t H); [lia |].
    intros x Hx. destruct x as [[] | []]; cbn in *; congruence.
  - apply IH in H. lia.
Qed.

Section Counting.

Context {World : Type}.
Variable E : Web3 World.
Variable cfg : Config.

Lemma liquidate_counts ca da pk caller user amount (w : World) :
  (count is_send (trace (liquidate E cfg ca da pk caller user amount w)) <= 1
   /\ count is_attempt
        (trace (liquidate E cfg ca da pk caller user amount w)) = 1
   /\ count is_fee_query
        (trace (liquidate E cfg ca da pk caller user amount w)) = 0
   /\ count is_reserve_query
        (trace (liquidate E cfg ca da pk caller user amount w)) = 0)%nat.
Proof.
  unfold liquidate.
  repeat script_step.
  all: script_leaf.
  all: count_simpl; repeat split; lia.
Qed.

Lemma attempt_counts user ca da amount (w : World) :
  (count is_send (trace (attempt E cfg user ca da amount w)) <= 1
   /\ count is_attempt (trace (attempt E cfg user ca da amount w)) = 1
   /\ count is_fee_query (trace (attempt E cfg user ca da amount w)) = 0
   /\ count is_reserve_query
        (trace (attempt E cfg user ca da amount w)) = 0)%nat.
Proof.
  rewrite attempt_run. cbv zeta.
  pose proof (liquidate_counts ca da (LIQUIDATOR_WALLET_PRIVATE_KEY cfg)
                (LIQUIDATOR_WALLET_ADDRESS cfg) user amount w)
    as (H1 & H2 & H3 & H4).
  set (r := liquidate E cfg ca da (LIQUIDATOR_WALLET_PRIVATE_KEY cfg)
              (LIQUIDATOR_WALLET_ADDRESS cfg) user amount w) in *.
  destruct (res r) as [v | e]; [| destruct (is_Exception e);
                                  [destruct (exn_message e) |]];
    cbn [trace]; count_simpl; repeat split; lia.
Qed.

Lemma pair_counts user c b (w : World) :
  (count is_send (trace (trigger_logic_pair E cfg user c b w)) <= 1
   /\ count is_attempt (trace (trigger_logic_pair E cfg user c b w))
      <= count is_fee_query (trace (trigger_logic_pair E cfg user c b w))
   /\ count is_attempt (trace (trigger_logic_pair E cfg user c b w))
      <= count is_reserve_query
           (trace (trigger_logic_pair E cfg user c b w)))%nat.
Proof.
  unfold trigger_logic_pair, partial_repay.
  repeat script_step.
  all: script_leaf.
  all: try match goal with
       | |- context [attempt E cfg ?u ?x ?y ?n ?w'] =>
         pose proof (attempt_counts u x y n w') as (H1 & H2 & H3 & H4)
       end.
  all: count_simpl; repeat split; lia.
Qed.

Lemma debts_counts user c bs (w : World) :
  (count is_send (trace (trigger_logic_debts E cfg user c bs w))
   <= List.length bs
   /\ count is_attempt (trace (trigger_logic_debts E cfg user c bs w))
      <= count is_fee_query (trace (trigger_logic_debts E cfg user c bs w))
   /\ count is_attempt (trace (trigger_logic_debts E cfg user c bs w))
      <= count is_reserve_query
           (trace (trigger_logic_debts E cfg user c bs w)))%nat.
Proof.
  revert w. induction bs as [| b bs IH]; intros w.
  - cbn. repeat split; lia.
  - cbn [trigger_logic_debts List.length]. rewrite trace_bind.
    pose proof (pair_counts user c b w) as (H1 & H2 & H3).
    destruct (res (trigger_logic_pair E cfg user c b w)) as [[|] | e].
    + cbn [ret trace]. count_simpl. repeat split; lia.
    + pose proof (IH (final (trigger_logic_pair E cfg user c b w)))
        as (I1 & I2 & I3).
      count_simpl. repeat split; lia.
    + count_simpl. repeat split; lia.
Qed.

Lemma collaterals_done_counts user debts cs (w : World) :
  (count is_send
     (trace (trigger_logic_collaterals E cfg user debts true cs w)) = 0
   /\ count is_attempt
        (trace (trigger_logic_collaterals E cfg user debts true cs w)) = 0)%nat.
Proof.
  pose proof (collaterals_done_quiet E cfg user debts cs w) as H.
  split; apply (count_zero _ quiet _ H);
    intros x Hx; destruct x as [[] | []]; cbn in *; congruence.
Qed.

Lemma collaterals_counts user debts cs (w : World) :
  (count is_send
     (trace (trigger_logic_collaterals E cfg user debts false cs w))
   <= List.length cs * List.length debts
   /\ count is_attempt
        (trace (trigger_logic_collaterals E cfg user debts false cs w))
      <= count is_fee_query
           (trace (trigger_logic_collaterals E cfg user debts false cs w))
   /\ count is_attempt
        (trace (trigger_logic_collaterals E cfg user debts false cs w))
      <= count is_reserve_query
           (trace (trigger_logic_collaterals E cfg user debts false cs w)))%nat.
Proof.
  revert w. induction cs as [| c cs IH]; intros w.
  - cbn. repeat split; lia.
  - rewrite collaterals_cons. rewrite !trace_prepend.
    cbn [List.length].
    destruct (py_float (conv E) (fiatAmount c)) as [v | e];
      [| cbn [trace]; count_simpl; repeat split; lia].
    destruct (flt_int v 1).
    { rewrite trace_prepend. pose proof (IH w) as (I1 & I2 & I3).
      count_simpl. repeat split; lia. }
    rewrite trace_bind.
    pose proof (debts_counts user c debts w) as (H1 & H2 & H3).
    destruct (res (trigger_logic_debts E cfg user c debts w)) as [[|] | e].
    + pose proof (collaterals_done_counts user debts cs
                    (final (trigger_logic_debts E cfg user c debts w)))
        as (D1 & D2).
      count_simpl. rewrite D1, D2. repeat split; lia.
    + pose proof (IH (final (trigger_logic_debts E cfg user c debts w)))
        as (I1 & I2 & I3).
      count_simpl. repeat split; lia.
    + count_simpl. repeat split; lia.
Qed.

Lemma position_counts p (w : World) :
  (count is_send (trace (trigger_logic_position E cfg p w)) <= pairs_of p
   /\ count is_attempt (trace (trigger_logic_position E cfg p w))
      <= count is_fee_query (trace (trigger_logic_position E cfg p w))
   /\ count is_attempt (trace (trigger_logic_position E cfg p w))
      <= count is_reserve_query (trace (trigger_logic_position E cfg p w))
   /\ count is_success (trace (trigger_logic_position E cfg p w)) <= 1)%nat.
Proof.
  unfold trigger_logic_position. rewrite bind_print, trace_prepend.
  pose proof (collaterals_counts (address p) (borrowedAssets p)
                (filter (fun asset => eq_True (isCollateral asset))
                   (supliedAssets p)) w) as (H1 & H2 & H3).
  pose proof (settled_count _
                (collaterals_settled E cfg (address p) (borrowedAssets p)
                   (filter (fun asset => eq_True (isCollateral asset))
                      (supliedAssets p)) w)) as H4.
  unfold pairs_of. count_simpl. repeat split; lia.
Qed.

Lemma positions_counts ps (w : World) :
  (count is_send (trace (trigger_logic_positions E cfg ps w))
   <= list_sum (map pairs_of ps)
   /\ count is_attempt (trace (trigger_logic_positions E cfg ps w))
      <= count is_fee_query (trace (trigger_logic_positions E cfg ps w))
   /\ count is_attempt (trace (trigger_logic_positions E cfg ps w))
      <= count is_reserve_query
           (trace (trigger_logic_positions E cfg ps w))
   /\ count is_success (trace (trigger_logic_positions E cfg ps w))
      <= List.length ps)%nat.
Proof.
  revert w. induction ps as [| p ps IH]; intros w.
  - cbn. repeat split; lia.
  - cbn [trigger_logic_positions List.length].
    change (list_sum (map pairs_of (p :: ps)))
      with (pairs_of p + list_sum (map pairs_of ps))%nat.
    rewrite trace_bind.
    pose proof (position_counts p w) as (H1 & H2 & H3 & H4).
    destruct (res (trigger_logic_position E cfg p w)) as [[] | e].
    + pose proof (IH (final (trigger_logic_position E cfg p w)))
        as (I1 & I2 & I3 & I4).
      count_simpl. repeat split; lia.
    + count_simpl. repeat split; lia.
Qed.

(** The whole run, in terms of the loop over the positions. *)
Lemma trigger_logic_trace (w : World) :
  trace (trigger_logic E cfg w)
  = Rpc R_positions ::
    match fst (getLiquidatablePositions E w) with
    | Ok [] => [Print L_no_liquidations]
    | Ok ps =>
      Print (L_positions_open (List.length ps)) ::
      trace (trigger_logic_positions E cfg ps
               (snd (getLiquidatablePositions E w))) ++
      match res (trigger_logic_positions E cfg ps
                   (snd (getLiquidatablePositions E w))) with
      | Ok _ => [Print L_finished]
      | Raise _ => []
      end
    | Raise _ => []
    end.
Proof.
  unfold trigger_logic. rewrite bind_rpc.
  destruct (fst (getLiquidatablePositions E w)) as [[| p ps] | e];
    [reflexivity | | reflexivity].
  rewrite trace_prepend, bind_print, trace_prepend, trace_bind.
  destruct (res _); reflexivity.
Qed.

(** X5. A run submits at most one transaction for each pair of a
    flagged collateral and a debt of the listed positions, and none when
    the list cannot be fetched. *)
Theorem submissions_bounded :
  forall (w : World),
    (count is_send (trace (trigger_logic E cfg w))
     <= match fst (getLiquidatablePositions E w) with
        | Ok ps => list_sum (map pairs_of ps)
        | Raise _ => 0
        end)%nat.
Proof.
  intros w. rewrite trigger_logic_trace.
  destruct (fst (getLiquidatablePositions E w)) as [[| p ps] | e];
    [cbn; lia | | cbn; lia].
  pose proof (positions_counts (p :: ps) (snd (getLiquidatablePositions E w)))
    as (H1 & _).
  destruct (res _); count_simpl; lia.
Qed.

(** X6. A run reports at most one success for each listed position. *)
Theorem successes_bounded :
  forall (w : World),
    (count is_success (trace (trigger_logic E cfg w))
     <= match fst (getLiquidatablePositions E w) with
        | Ok ps => List.length ps
        | Raise _ => 0
        end)%nat.
Proof.
  intros w. rewrite trigger_logic_trace.
  destruct (fst (getLiquidatablePositions E w)) as [[| p ps] | e];
    [cbn; lia | | cbn; lia].
  pose proof (positions_counts (p :: ps) (snd (getLiquidatablePositions E w)))
    as (_ & _ & _ & H4).
  destruct (res _); count_simpl; lia.
Qed.

(** X7. Nothing is cached between pairs: every attempt of a run was
    preceded by a fee query and a reserve-configuration query of its
    own, so there are at least as many of each as attempts. *)
Theorem attempts_requery :
  forall (w : World),
    (count is_attempt (trace (trigger_logic E cfg w))
     <= count is_fee_query (trace (trigger_logic E cfg w))
     /\ count is_attempt (trace (trigger_logic E cfg w))
        <= count is_reserve_query (trace (trigger_logic E cfg w)))%nat.
Proof.
  intros w. rewrite trigger_logic_trace.
  destruct (fst (getLiquidatablePositions E w)) as [[| p ps] | e];
    [cbn; lia | | cbn; lia].
  pose proof (positions_counts (p :: ps) (snd (getLiquidatablePositions E w)))
    as (_ & H2 & H3 & _).
  destruct (res _); count_simpl; lia.
Qed.

End Counting.

(** ** What a run touches *)

Section Targets.

Context {World : Type}.
Variable E : Web3 World.
Variable cfg : Config.

(** X1. Without open positions the run does nothing but ask for them:
    any other remote call means the list was fetched and not empty; an
    empty list ends the run with [SystemExit] after one line; a failure
    to fetch the list ends it with that failure. *)
Theorem no_positions_no_calls :
  forall (w : World),
    (forall q, In (Rpc q) (trace (trigger_logic E cfg w)) ->
               q <> R_positions ->
               exists p ps, fst (getLiquidatablePositions E w)
                            = Ok (p :: ps)) /\
    (fst (getLiquidatablePositions E w) = Ok [] ->
     res (trigger_logic E cfg w) = Raise (Exn "SystemExit" None) /\
     trace (trigger_logic E cfg w)
     = [Rpc R_positions; Print L_no_liquidations]) /\
    (forall e, fst (getLiquidatablePositions E w) = Raise e ->
               res (trigger_logic E cfg w) = Raise e).
Proof.
  intros w. split; [| split].
  - intros q Hin Hq. rewrite trigger_logic_trace in Hin.
    destruct (fst (getLiquidatablePositions E w)) as [[| p ps] | e].
    + cbn [In] in Hin. in_cases Hin. congruence.
    + exists p, ps. reflexivity.
    + cbn [In] in Hin. in_cases Hin. congruence.
  - intros H. split; [| rewrite trigger_logic_trace, H; reflexivity].
    unfold trigger_logic. rewrite bind_rpc, H. reflexivity.
  - intros e H. unfold trigger_logic. rewrite bind_rpc, H. reflexivity.
Qed.

Lemma attempt_build_inv user ca da amount (w : World) call p :
  In (Rpc (R_build call p)) (trace (attempt E cfg user ca da amount w)) ->
  to_checksum_address E da = Ok (lc_debt call) /\
  to_checksum_address E ca = Ok (lc_collateral call) /\
  to_checksum_address E user = Ok (lc_user call).
Proof.
  rewrite attempt_run. cbv zeta. intros H.
  assert (Hin : In (Rpc (R_build call p))
                  (trace (liquidate E cfg ca da
                     (LIQUIDATOR_WALLET_PRIVATE_KEY cfg)
                     (LIQUIDATOR_WALLET_ADDRESS cfg) user amount w))).
  { destruct (res _) as [v | e]; [| destruct (is_Exception e);
                                    [destruct (exn_message e) |]];
      cbn [trace] in H; try exact H;
      apply in_app_or in H as [H | H]; try exact H;
      cbn [In] in H; in_cases H. }
  apply liquidate_build_inv in Hin. exact Hin.
Qed.

Lemma pair_targets user c b (w : World) call p :
  In (Rpc (R_build call p)) (trace (trigger_logic_pair E cfg user c b w)) ->
  built_for E user c b call.
Proof.
  unfold trigger_logic_pair, partial_repay.
  repeat script_step.
  all: script_leaf.
  all: intros Hin.
  all: repeat (destruct Hin as [Hin | Hin]; [discriminate Hin |]).
  all: try contradiction.
  all: apply attempt_build_inv in Hin; destruct Hin as (H1 & H2 & H3).
  all: eexists _, _; repeat split; eassumption.
Qed.

Lemma debts_targets user c bs (w : World) call p :
  In (Rpc (R_build call p)) (trace (trigger_logic_debts E cfg user c bs w)) ->
  exists b, In b bs /\ built_for E user c b call.
Proof.
  revert w. induction bs as [| b bs IH]; intros w; [intros [] |].
  cbn [trigger_logic_debts]. rewrite trace_bind. intros H.
  apply in_app_or in H as [H | H].
  - exists b. split; [left; reflexivity | exact (pair_targets _ _ _ _ _ _ H)].
  - destruct (res (trigger_logic_pair E cfg user c b w)) as [[|] | e];
      try destruct H.
    destruct (IH _ H) as (b' & Hb & Ht). exists b'.
    split; [right; exact Hb | exact Ht].
Qed.

Lemma collaterals_targets user debts done cs (w : World) call p :
  In (Rpc (R_build call p))
     (trace (trigger_logic_collaterals E cfg user debts done cs w)) ->
  exists c b v,
    In c cs /\ In b debts /\
    py_float (conv E) (fiatAmount c) = Ok v /\ flt_int v 1 = false /\
    built_for E user c b call.
Proof.
  revert done w. induction cs as [| c cs IH]; intros done w; [intros [] |].
  rewrite collaterals_cons. rewrite !trace_prepend.
  intros [H | [H | H]]; [discriminate H | discriminate H |].
  assert (Hrec : forall d w',
             In (Rpc (R_build call p))
                (trace (trigger_logic_collaterals E cfg user debts d cs w')) ->
             exists c0 b v,
               In c0 (c :: cs) /\ In b debts /\
               py_float (conv E) (fiatAmount c0) = Ok v /\
               flt_int v 1 = false /\ built_for E user c0 b call).
  { intros d w' H'. destruct (IH _ _ H') as (c0 & b & v & Hc & Hrest).
    exists c0, b, v. split; [right; exact Hc | exact Hrest]. }
  destruct (py_float (conv E) (fiatAmount c)) as [v | e] eqn:Hv;
    [| destruct H].
  destruct (flt_int v 1) eqn:Hlt.
  { rewrite trace_prepend in H. destruct H as [H | H]; [discriminate H |].
    exact (Hrec _ _ H). }
  destruct done; [destruct H |].
  rewrite trace_bind in H. apply in_app_or in H as [H | H].
  - destruct (debts_targets _ _ _ _ _ _ H) as (b & Hb & Ht).
    exists c, b, v. repeat split; try assumption. left; reflexivity.
  - destruct (res (trigger_logic_debts E cfg user c debts w));
      [exact (Hrec _ _ H) | destruct H].
Qed.

(** X8. Every call a position's run builds names a flagged collateral
    of that position worth at least 1, one of its debts, and the owner of
    the position as borrower. *)
Theorem targets_belong_to_position :
  forall p (w : World) call prm,
    In (Rpc (R_build call prm)) (trace (trigger_logic_position E cfg p w)) ->
    exists c b v,
      In c (supliedAssets p) /\ eq_True (isCollateral c) = true /\
      py_float (conv E) (fiatAmount c) = Ok v /\ flt_int v 1 = false /\
      In b (borrowedAssets p) /\
      built_for E (address p) c b call.
Proof.
  intros p w call prm. unfold trigger_logic_position.
  rewrite bind_print, trace_prepend.
  intros [H | H]; [discriminate H |].
  destruct (collaterals_targets _ _ _ _ _ _ _ H)
    as (c & b & v & Hc & Hb & Hv & Hlt & Ht).
  apply filter_In in Hc as [Hc Hf].
  exists c, b, v. repeat split; assumption.
Qed.

End Targets.

(** ** What a run never reads *)

Section Unread.

Context {World : Type}.
Variable E : Web3 World.
Variable cfg : Config.

Lemma bind_ext {A B} (m : M World A) (k k' : A -> M World B) (w : World) :
  (forall a w', k a w' = k' a w') -> bind m k w = bind m k' w.
Proof.
  intros H. unfold bind. destruct (res (m w)); [rewrite H |]; reflexivity.
Qed.

Lemma bind_cong {A B} (m m' : M World A) (k k' : A -> M World B) (w : World) :
  m w = m' w -> (forall a w', k a w' = k' a w') ->
  bind m k w = bind m' k' w.
Proof.
  intros Hm H. unfold bind. rewrite Hm.
  destruct (res (m' w)); [rewrite H |]; reflexivity.
Qed.

Variable s : Receipt -> Z.

Lemma liquidate_with_status ca da pk caller user amount (w : World) :
  liquidate (with_status s E) cfg ca da pk caller user amount w
  = liquidate E cfg ca da pk caller user amount w.
Proof.
  unfold liquidate.
  cbn [with_status to_checksum_address get_transaction_count
       build_transaction sign_transaction keccak to_hex hex
       send_raw_transaction wait_for_transaction_receipt].
  repeat script_step.
  all: script_leaf.
  all: cbn [fst snd] in *.
  all: repeat match goal with
       | H : Ok _ = Ok _ |- _ => injection H as <-
       | H : Raise _ = Raise _ |- _ => injection H as <-
       | H : Ok _ = Raise _ |- _ => discriminate H
       | H : Raise _ = Ok _ |- _ => discriminate H
       end.
  all: reflexivity.
Qed.

Lemma attempt_with_status user ca da amount (w : World) :
  attempt (with_status s E) cfg user ca da amount w
  = attempt E cfg user ca da amount w.
Proof.
  rewrite !attempt_run. cbv zeta. rewrite liquidate_with_status.
  reflexivity.
Qed.

Lemma pair_with_status user c b (w : World) :
  trigger_logic_pair (with_status s E) cfg user c b w
  = trigger_logic_pair E cfg user c b w.
Proof.
  unfold trigger_logic_pair, partial_repay.
  cbn [with_status to_checksum_address conv
       liquidationProtocolFeePercentage getReserveConfigurationData
       decimals].
  repeat match goal with
         | |- bind _ _ _ = bind _ _ _ => apply bind_ext; intros ? ?
         end.
  apply attempt_with_status.
Qed.

Lemma debts_with_status user c bs (w : World) :
  trigger_logic_debts (with_status s E) cfg user c bs w
  = trigger_logic_debts E cfg user c bs w.
Proof.
  revert w. induction bs as [| b bs IH]; intros w; [reflexivity |].
  cbn [trigger_logic_debts]. apply bind_cong.
  - apply pair_with_status.
  - intros [|] w'; [reflexivity | apply IH].
Qed.

Lemma collaterals_with_status user debts done cs (w : World) :
  trigger_logic_collaterals (with_status s E) cfg user debts done cs w
  = trigger_logic_collaterals E cfg user debts done cs w.
Proof.
  revert done w. induction cs as [| c cs IH]; intros done w;
    [reflexivity |].
  rewrite !collaterals_cons. cbn [with_status conv].
  destruct (py_float (conv E) (fiatAmount c)) as [v | e]; [| reflexivity].
  destruct (flt_int v 1); [rewrite IH; reflexivity |].
  destruct done; [reflexivity |].
  match goal with
  | |- prepend _ (prepend _ ?x) = prepend _ (prepend _ ?y) =>
    replace x with y; [reflexivity | symmetry]
  end.
  apply bind_cong; [apply debts_with_status |].
  intros d w'. apply IH.
Qed.

Lemma positions_with_status ps (w : World) :
  trigger_logic_positions (with_status s E) cfg ps w
  = trigger_logic_positions E cfg ps w.
Proof.
  revert w. induction ps as [| p ps IH]; intros w; [reflexivity |].
  cbn [trigger_logic_positions]. apply bind_cong.
  - unfold trigger_logic_position. rewrite !bind_print.
    rewrite collaterals_with_status. reflexivity.
  - intros _ w'. apply IH.
Qed.

(** X9. The status of the receipt is never read: whatever it is, the
    run is the same, event for event. A transaction mined as failed is
    reported as a success. *)
Theorem receipt_status_unread :
  forall (w : World),
    trigger_logic (with_status s E) cfg w = trigger_logic E cfg w.
Proof.
  intros w. unfold trigger_logic.
  cbn [with_status getLiquidatablePositions].
  apply bind_ext. intros [| p ps] w'; [reflexivity |].
  apply bind_ext. intros _ w''.
  apply bind_cong; [apply positions_with_status | reflexivity].
Qed.

End Unread.

(** ** The end of a run *)

Section Ending.

Context {World : Type}.
Variable E : Web3 World.
Variable cfg : Config.

Lemma pair_event_loop e : pair_event e = true -> loop_event e = true.
Proof. unfold loop_event. intros ->. reflexivity. Qed.

Lemma collaterals_loop_events user debts done cs (w : World) :
  forallb loop_event
    (trace (trigger_logic_collaterals E cfg user debts done cs w)) = true.
Proof.
  revert done w. induction cs as [| c cs IH]; intros done w; [reflexivity |].
  rewrite collaterals_cons. rewrite !trace_prepend.
  cbn [forallb loop_event pair_event quiet orb andb].
  destruct (py_float (conv E) (fiatAmount c)) as [v | e]; [| reflexivity].
  destruct (flt_int v 1).
  { rewrite trace_prepend. cbn [forallb loop_event pair_event quiet orb andb].
    apply IH. }
  destruct done; [reflexivity |].
  rewrite trace_bind, forallb_app.
  rewrite (forallb_impl _ _ _ pair_event_loop
             (debts_events E cfg user c debts w)).
  destruct (res (trigger_logic_debts E cfg user c debts w));
    [apply IH | reflexivity].
Qed.

Lemma positions_loop_events ps (w : World) :
  forallb loop_event (trace (trigger_logic_positions E cfg ps w)) = true.
Proof.
  revert w. induction ps as [| p ps IH]; intros w; [reflexivity |].
  cbn [trigger_logic_positions]. rewrite trace_bind, forallb_app.
  assert (Hp : forallb loop_event (trace (trigger_logic_position E cfg p w))
               = true).
  { unfold trigger_logic_position. rewrite bind_print, trace_prepend.
    cbn [forallb loop_event pair_event quiet orb andb].
    apply collaterals_loop_events. }
  rewrite Hp.
  destruct (res (trigger_logic_position E cfg p w)); [apply IH | reflexivity].
Qed.

(** X10. The closing banner (line 327) is printed exactly when the run
    completes, and then it is the last event and printed once. *)
Theorem finished_iff_completed :
  forall (w : World),
    (In (Print L_finished) (trace (trigger_logic E cfg w)) <->
     res (trigger_logic E cfg w) = Ok tt) /\
    (res (trigger_logic E cfg w) = Ok tt ->
     exists t, trace (trigger_logic E cfg w) = t ++ [Print L_finished] /\
               ~ In (Print L_finished) t).
Proof.
  intros w.
  assert (Hno : forall ps w', ~ In (Print L_finished)
                    (trace (trigger_logic_positions E cfg ps w'))).
  { intros ps w' Hin.
    pose proof (proj1 (forallb_forall _ _) (positions_loop_events ps w') _ Hin)
      as Hl. discriminate Hl. }
  assert (Hres : res (trigger_logic E cfg w)
                 = match fst (getLiquidatablePositions E w) with
                   | Ok [] => Raise (Exn "SystemExit" None)
                   | Ok ps =>
                     match res (trigger_logic_positions E cfg ps
                                  (snd (getLiquidatablePositions E w))) with
                     | Ok _ => Ok tt
                     | Raise e => Raise e
                     end
                   | Raise e => Raise e
                   end).
  { unfold trigger_logic. rewrite bind_rpc.
    destruct (fst (getLiquidatablePositions E w)) as [[| p ps] | e];
      [reflexivity | | reflexivity].
    rewrite res_prepend, bind_print, res_prepend, res_bind.
    destruct (res _); reflexivity. }
  rewrite Hres, trigger_logic_trace.
  destruct (fst (getLiquidatablePositions E w)) as [[| p ps] | e].
  - split; [split |]; try discriminate.
    intros [H | [H | []]]; discriminate H.
  - pose proof (Hno (p :: ps) (snd (getLiquidatablePositions E w))) as Hn.
    destruct (res (trigger_logic_positions E cfg (p :: ps)
                     (snd (getLiquidatablePositions E w)))) as [u | e].
    + split; [split; [reflexivity |] |].
      * intros _. right. right. apply in_or_app. right. left. reflexivity.
      * intros _.
        exists (Rpc R_positions
                :: Print (L_positions_open (List.length (p :: ps)))
                :: trace (trigger_logic_positions E cfg (p :: ps)
                            (snd (getLiquidatablePositions E w)))).
        split; [reflexivity |].
        intros [H | [H | H]]; [discriminate H | discriminate H |].
        exact (Hn H).
    + split; [split |]; try discriminate.
      intros [H | [H | H]]; [discriminate H | discriminate H |].
      rewrite app_nil_r in H. contradiction (Hn H).
  - split; [split |]; try discriminate.
    intros [H | []]. discriminate H.
Qed.

(** X11. The collateral side of the partial-repay branch divides as well
    (line 295): with [int(totalSuppliedAmount) = 0] the pair raises after
    the one-debt-token price was printed and before any attempt. *)
Theorem zero_supply_partial_raises :
  forall user c b (w : World) u,
    py_int (conv E) (totalSuppliedAmount c) = Ok 0 ->
    In (Print (L_one_debt_usd u))
       (trace (trigger_logic_pair E cfg user c b w)) ->
    exists e,
      res (trigger_logic_pair E cfg user c b w) = Raise e /\
      (e = ZeroDivisionError \/
       (exists a, to_checksum_address E a = Raise e) \/
       (exists a w', fst (decimals E a w') = Raise e)) /\
      (forall x, ~ In (Print (L_one_collateral_usd x))
                      (trace (trigger_logic_pair E cfg user c b w))) /\
      (forall n, ~ In (Print (L_debt_to_cover n))
                      (trace (trigger_logic_pair E cfg user c b w))) /\
      ~ In (Print L_failed) (trace (trigger_logic_pair E cfg user c b w)).
Proof.
  intros user c b w u Hz Hp. revert Hz Hp.
  unfold trigger_logic_pair, partial_repay.
  repeat script_step.
  all: script_leaf.
  all: intros Hz Hp.
  all: try discriminate Hz; try (injection Hz as ->).
  all: in_trace Hp.
  all: repeat match goal with
       | H : int_truediv 0 (pow10 _) = _ |- _ =>
         rewrite int_truediv_zero in H;
         first [discriminate H | injection H as <-]
       | H : fdiv _ (S754_zero false) = _ |- _ =>
         cbv [fdiv is_zero] in H;
         first [discriminate H | injection H as <-]
       end.
  all: eexists; split; [reflexivity |].
  all: split; [first [left; reflexivity
                     | right; left; eexists; eassumption
                     | right; right; eexists _, _; eassumption] |].
  all: split; [intros x Hev; in_trace Hev |].
  all: split; [intros n Hev; in_trace Hev | intros Hev; in_trace Hev].
Qed.

End Ending.

(** ** The failure handler *)








Section Handler.

Context {World : Type}.
Variable E : Web3 World.
Variable cfg : Config.












End Handler.

(** ** Concrete runs *)

Ltac listed := vm_compute; repeat first [left; reflexivity | right]; fail.

Ltac unlisted :=
  let H := fresh in
  intros H; vm_compute in H;
  repeat (destruct H as [H | H]; [discriminate H |]); exact H.

Section Examples.

Import Runs.

(** The float constants used below are the doubles Python reads from
    the corresponding literals. *)
Lemma literals :
  int_truediv 101 100 = Ok lit_1_01 /\
  float_of_int 1 = Ok f_one /\
  float_of_int 100 = Ok f_hundred /\
  int_truediv 1 2 = Ok f_half /\
  float_of_int 90 = Ok f_90 /\
  int_truediv 1055 1000 = Ok f_1_055.
Proof. repeat split; vm_compute; reflexivity. Qed.

(** A failed attempt whose exception carries a [message] is logged and
    the loop goes on; one whose exception has none ends in
    [AttributeError], raised by the handler itself. *)
Lemma attempt_failure {World} (E : Web3 World) cfg user ca da amount w e :
  res (liquidate E cfg ca da (LIQUIDATOR_WALLET_PRIVATE_KEY cfg)
         (LIQUIDATOR_WALLET_ADDRESS cfg) user amount w) = Raise e ->
  is_Exception e = true ->
  res (attempt E cfg user ca da amount w)
  = match exn_message e with
    | Some _ => Ok false
    | None => Raise AttributeError
    end.
Proof.
  intros He Hx. rewrite attempt_run. cbv zeta. rewrite He, Hx.
  destruct (exn_message e); reflexivity.
Qed.

(** With an exception that carries a [message] the handler works: both
    pairs fail, both failures are logged, the run finishes. *)
Lemma reverted_attempts_are_skipped :
  res (trigger_logic reverting Sim.config 0%nat) = Ok tt /\
  In (Print (L_debt d1)) (trace (trigger_logic reverting Sim.config 0%nat)) /\
  In (Print (L_debt d2)) (trace (trigger_logic reverting Sim.config 0%nat)) /\
  In (Print (L_message "execution reverted"))
     (trace (trigger_logic reverting Sim.config 0%nat)) /\
  In (Print L_finished) (trace (trigger_logic reverting Sim.config 0%nat)) /\
  ~ In (Print (L_success "0xU1"))
       (trace (trigger_logic reverting Sim.config 0%nat)).
Proof.
  split; [vm_compute; reflexivity |].
  split; [listed |]. split; [listed |]. split; [listed |].
  split; [listed | unlisted].
Qed.

(** C1, where the code departs from it. The node rejects the raw
    transaction of the first pair; web3 raises a [ValueError], which has
    no [message] attribute. The handler prints the failure banner, then
    [print(e.message)] raises [AttributeError]: the run ends there, the
    second debt is never evaluated and the closing banner never
    printed. *)
Theorem rejected_submission_aborts_run :
  res (trigger_logic w_rejecting Sim.config 0%nat) = Raise AttributeError /\
  In (Print (L_debt d1)) (trace (trigger_logic w_rejecting Sim.config 0%nat)) /\
  In (Rpc (R_send_raw "signed(0xC1<-0xD1)"))
     (trace (trigger_logic w_rejecting Sim.config 0%nat)) /\
  In (Print L_failed) (trace (trigger_logic w_rejecting Sim.config 0%nat)) /\
  ~ In (Print (L_debt d2))
       (trace (trigger_logic w_rejecting Sim.config 0%nat)) /\
  ~ In (Print L_finished)
       (trace (trigger_logic w_rejecting Sim.config 0%nat)).
Proof.
  split; [vm_compute; reflexivity |].
  split; [listed |]. split; [listed |]. split; [listed |].
  split; unlisted.
Qed.

(** C2 fails: a debt with variable total 0 and fiat amount 50 against a
    collateral of 10 goes to the partial-repay branch and the run ends
    with [ZeroDivisionError]; no failure is logged and the next debt is
    never evaluated. *)
Lemma zero_debt_aborts_run :
  res (trigger_logic w_zero Sim.config 0%nat) = Raise ZeroDivisionError /\
  In (Print (L_debt d_zero)) (trace (trigger_logic w_zero Sim.config 0%nat)) /\
  In (Print L_partial_debt) (trace (trigger_logic w_zero Sim.config 0%nat)) /\
  ~ In (Print L_failed) (trace (trigger_logic w_zero Sim.config 0%nat)) /\
  ~ In (Print (L_debt d1)) (trace (trigger_logic w_zero Sim.config 0%nat)) /\
  ~ In (Print L_finished) (trace (trigger_logic w_zero Sim.config 0%nat)).
Proof.
  split; [vm_compute; reflexivity |].
  split; [listed |]. split; [listed |].
  split; [unlisted |]. split; unlisted.
Qed.

(** C5 fails in both branches: a debt with no variable borrow is
    submitted with amount 0 from the full-repay branch, and so is one
    unit of a token without decimals from the partial-repay branch. *)
Lemma zero_amount_submitted :
  (In (Print L_full_debt) (trace (trigger_logic w_none Sim.config 0%nat)) /\
   In (Rpc (R_build
              {| lc_debt := "0xD3"; lc_debtToCover := 0;
                 lc_collateral := "0xC1"; lc_user := "0xU4";
                 lc_assets := ["0xC1"; "0xD3"] |}
              {| tp_chainId := 1; tp_from := "0xB07"; tp_nonce := 0 |}))
      (trace (trigger_logic w_none Sim.config 0%nat))) /\
  (In (Print L_partial_debt)
      (trace (trigger_logic w_coarse Sim.config 0%nat)) /\
   In (Rpc (R_build
              {| lc_debt := "0xD9"; lc_debtToCover := 0;
                 lc_collateral := "0xC1"; lc_user := "0xU5";
                 lc_assets := ["0xC1"; "0xD9"] |}
              {| tp_chainId := 1; tp_from := "0xB07"; tp_nonce := 0 |}))
      (trace (trigger_logic w_coarse Sim.config 0%nat))).
Proof. repeat split; listed. Qed.

(** C9 fails: the attempt succeeds, the hash is printed, and the value
    of the call is [None], not the hash. *)
Lemma liquidate_hash_not_returned :
  res (liquidate w_ok Sim.config "0xC1" "0xD1" "key" "0xB07" "0xU1"
         90000000000000000000 0%nat) = Ok PyNone /\
  In (Print (L_tx_hash "0xkeccak(signed(0xC1<-0xD1))"))
     (trace (liquidate w_ok Sim.config "0xC1" "0xD1" "key" "0xB07" "0xU1"
               90000000000000000000 0%nat)) /\
  res (liquidate w_ok Sim.config "0xC1" "0xD1" "key" "0xB07" "0xU1"
         90000000000000000000 0%nat)
  <> Ok (PyStr "0xkeccak(signed(0xC1<-0xD1))").
Proof.
  split; [vm_compute; reflexivity |]. split; [listed |].
  vm_compute. discriminate.
Qed.

Lemma liquidate_awaits_local_hash_witness :
  In (Rpc (R_wait_receipt "0xkeccak(signed(0xC1<-0xD1))"))
     (trace run_liquidate) /\
  exists tx signed pre post,
    sign_transaction w_ok tx "key" = Ok signed /\
    "0xkeccak(signed(0xC1<-0xD1))"
    = to_hex w_ok (keccak w_ok (rawTransaction signed)) /\
    trace run_liquidate
    = pre ++ Rpc (R_send_raw (rawTransaction signed))
          :: Rpc (R_wait_receipt "0xkeccak(signed(0xC1<-0xD1))") :: post /\
    (forall e, In e pre -> forall raw h', e <> Rpc (R_send_raw raw)
                                     /\ e <> Rpc (R_wait_receipt h')).
Proof.
  split; [listed |].
  apply (liquidate_awaits_local_hash w_ok Sim.config "0xC1" "0xD1" "key"
           "0xB07" "0xU1" 90000000000000000000 0%nat).
  listed.
Defined.

Lemma liquidate_success_witness :
  res run_liquidate = Ok PyNone /\
  exists h w' receipt pre,
    fst (wait_for_transaction_receipt w_ok h w') = Ok receipt /\
    trace run_liquidate
    = pre ++ [Rpc (R_wait_receipt h);
              Print (L_tx_hash (hex w_ok (transactionHash receipt)))].
Proof.
  split; [vm_compute; reflexivity |].
  apply (liquidate_success w_ok Sim.config "0xC1" "0xD1" "key" "0xB07"
           "0xU1" 90000000000000000000 0%nat PyNone).
  vm_compute; reflexivity.
Defined.

Lemma scale_factor_formula_witness :
  In (Print (L_scale_factor f_1_055)) (trace run_full) /\
  exists a feeRaw data x q fee bonus,
    fst (liquidationProtocolFeePercentage w_ok 0%nat) = Ok feeRaw /\
    to_checksum_address w_ok (c_contract c1) = Ok a /\
    fst (getReserveConfigurationData w_ok a
           (snd (liquidationProtocolFeePercentage w_ok 0%nat))) = Ok data /\
    nth_error data 3 = Some x /\
    int_truediv feeRaw 100 = Ok fee /\
    int_truediv x 100 = Ok q /\
    bonus = fsub q f_hundred /\
    f_1_055 = spec_scale_factor bonus fee.
Proof.
  split; [listed |].
  apply (proj1 (scale_factor_formula w_ok Sim.config) "0xU1" c1 d1 0%nat
           f_1_055).
  listed.
Defined.

Lemma full_repay_branch_witness :
  In (Print (L_scale_factor f_1_055)) (trace run_full) /\
  py_float (conv w_ok) (vr_fiatAmount (variableRate d1)) = Ok f_90 /\
  py_float (conv w_ok) (fiatAmount c1) = Ok f_hundred /\
  flt (fmul f_90 f_1_055) f_hundred = true /\
  In (Print L_full_debt) (trace run_full) /\
  (forall a, ~ In (Rpc (R_decimals a)) (trace run_full)) /\
  In (Print (L_debt_to_cover 90000000000000000000)) (trace run_full).
Proof.
  assert (H1 : In (Print (L_scale_factor f_1_055)) (trace run_full))
    by listed.
  assert (H2 : py_float (conv w_ok) (vr_fiatAmount (variableRate d1))
               = Ok f_90) by (vm_compute; reflexivity).
  assert (H3 : py_float (conv w_ok) (fiatAmount c1) = Ok f_hundred)
    by (vm_compute; reflexivity).
  assert (H4 : flt (fmul f_90 f_1_055) f_hundred = true)
    by (vm_compute; reflexivity).
  destruct (full_repay_branch w_ok Sim.config "0xU1" c1 d1 0%nat
              f_1_055 f_90 f_hundred H1 H2 H3 H4)
    as (C1 & _ & C3 & _ & _ & C6).
  repeat split; try assumption.
  apply C6. vm_compute; reflexivity.
Defined.

Lemma partial_repay_amount_witness :
  In (Print L_partial_debt) (trace run_partial) /\
  In (Print (L_debt_to_cover 96190476190476189696)) (trace run_partial) /\
  exists cfiat dfiat sf u a da d w',
    py_float (conv w_partial) (fiatAmount c1) = Ok cfiat /\
    py_float (conv w_partial) (vr_fiatAmount (variableRate d2)) = Ok dfiat /\
    In (Print (L_scale_factor sf)) (trace run_partial) /\
    flt (fmul dfiat sf) cfiat = false /\
    In (Print (L_one_debt_usd u)) (trace run_partial) /\
    to_checksum_address w_partial (b_contract d2) = Ok a /\
    to_checksum_address w_partial a = Ok da /\
    fst (decimals w_partial da w') = Ok d /\
    spec_partial_amount cfiat u sf d = Ok 96190476190476189696 /\
    (forall call p,
       In (Rpc (R_build call p)) (trace run_partial) ->
       lc_debtToCover call = 96190476190476189696).
Proof.
  split; [listed |]. split; [listed |].
  apply (proj1 (partial_repay_amount w_partial Sim.config) "0xU2" c1 d2
           0%nat 96190476190476189696); listed.
Defined.

Lemma submitted_amount_sign_witness :
  In (Print (L_debt_to_cover 90000000000000000000)) (trace run_full) /\
  ((In (Print L_full_debt) (trace run_full) /\
    py_int (conv w_ok) (vr_totalBorrowedAmount (variableRate d1))
    = Ok 90000000000000000000) \/
   (In (Print L_partial_debt) (trace run_full) /\
    exists tokens a da d w' y base,
      In (Print (L_debt_to_cover_tokens tokens)) (trace run_full) /\
      to_checksum_address w_ok (b_contract d1) = Ok a /\
      to_checksum_address w_ok a = Ok da /\
      fst (decimals w_ok da w') = Ok d /\
      mul_fi tokens (pow10 d) = Ok y /\
      int_of_float y = Ok base /\
      (0 < 90000000000000000000 <-> 0 < base))).
Proof.
  split; [listed |].
  apply (submitted_amount_sign w_ok Sim.config "0xU1" c1 d1 0%nat
           90000000000000000000).
  listed.
Defined.

Lemma one_liquidation_per_position_witness :
  trace run_position
  = before_success (trace run_position)
    ++ Print (L_success "0xU1") :: after_success (trace run_position) /\
  after_success (trace run_position)
  = [Print L_new_liquidation; Print (L_collateral c2)] /\
  forallb quiet (after_success (trace run_position)) = true /\
  existsb is_success (before_success (trace run_position)) = false.
Proof.
  assert (H : trace run_position
              = before_success (trace run_position)
                ++ Print (L_success "0xU1")
                   :: after_success (trace run_position))
    by (vm_compute; reflexivity).
  destruct (one_liquidation_per_position w_ok Sim.config p_ok 0%nat
              _ _ _ H) as (C1 & C2 & _).
  split; [exact H |]. split; [vm_compute; reflexivity |].
  split; assumption.
Defined.

Lemma dust_and_non_collateral_skipped_witness :
  py_float (conv w_ok) (fiatAmount c_dust) = Ok f_half /\
  flt_int f_half 1 = true /\
  trigger_logic_collaterals w_ok Sim.config "0xU1" [d1; d2] false
    [c_dust; c1; c2] 0%nat
  = prepend (Print L_new_liquidation)
      (prepend (Print (L_collateral c_dust))
         (prepend (Print L_skipping)
            (trigger_logic_collaterals w_ok Sim.config "0xU1" [d1; d2] false
               [c1; c2] 0%nat))) /\
  In (Print (L_collateral c1)) (trace run_position) /\
  In c1 (supliedAssets p_ok) /\
  eq_True (isCollateral c1) = true.
Proof.
  assert (H1 : py_float (conv w_ok) (fiatAmount c_dust) = Ok f_half)
    by (vm_compute; reflexivity).
  assert (H2 : flt_int f_half 1 = true) by (vm_compute; reflexivity).
  assert (H3 : In (Print (L_collateral c1)) (trace run_position)) by listed.
  split; [exact H1 |]. split; [exact H2 |].
  split.
  - exact (proj1 (dust_and_non_collateral_skipped w_ok Sim.config)
             "0xU1" [d1; d2] false c_dust [c1; c2] 0%nat f_half H1 H2).
  - split; [exact H3 |].
    exact (proj2 (dust_and_non_collateral_skipped w_ok Sim.config)
             p_ok 0%nat c1 H3).
Defined.

Lemma zero_debt_partial_raises_witness :
  (py_int (conv w_zero) (vr_totalBorrowedAmount (variableRate d_zero)) = Ok 0 /\
   In (Print L_partial_debt) (trace run_zero) /\
   exists e,
     res run_zero = Raise e /\
     (e = ZeroDivisionError \/
      (exists a, to_checksum_address w_zero a = Raise e) \/
      (exists a w', fst (decimals w_zero a w') = Raise e)) /\
     (forall n, ~ In (Print (L_debt_to_cover n)) (trace run_zero)) /\
     ~ In (Print L_failed) (trace run_zero) /\
     (forall bs, trigger_logic_debts w_zero Sim.config "0xU3" c_small
                   (d_zero :: bs) 0%nat
                 = run_zero) /\
     (forall bs cs v p ps,
        py_float (conv w_zero) (fiatAmount c_small) = Ok v ->
        flt_int v 1 = false ->
        address p = "0xU3" ->
        borrowedAssets p = d_zero :: bs ->
        filter (fun asset => eq_True (isCollateral asset)) (supliedAssets p)
        = c_small :: cs ->
        res (trigger_logic_positions w_zero Sim.config (p :: ps) 0%nat)
        = Raise e)) /\
  (exists mid post,
     trace run_zero
     = Print (L_debt d_zero) :: mid ++ Print L_partial_debt :: post /\
     forallb sizing_event mid = true /\
     existsb is_debt_line mid = false) /\
  (trace run_late
   = firstn 51 (trace run_late)
     ++ Print (L_debt d_zero)
        :: firstn 7 (skipn 52 (trace run_late))
        ++ Print L_partial_debt :: [Rpc (R_decimals "0xD0")] /\
   In (Print (L_debt d1)) (firstn 51 (trace run_late)) /\
   In (Print (L_message "execution reverted")) (firstn 51 (trace run_late)) /\
   existsb is_debt_line (firstn 7 (skipn 52 (trace run_late))) = false /\
   py_int (conv w_zero_late) (vr_totalBorrowedAmount (variableRate d_zero))
   = Ok 0 /\
   res run_late = Raise ZeroDivisionError /\
   exists e,
     res run_late = Raise e /\
     (e = ZeroDivisionError \/
      (exists a, to_checksum_address w_zero_late a = Raise e) \/
      (exists a w', fst (decimals w_zero_late a w') = Raise e)) /\
     forallb sizing_event (firstn 7 (skipn 52 (trace run_late))) = true /\
     (forall x, In x [Rpc (R_decimals "0xD0")] ->
                exists a, x = Rpc (R_decimals a))).
Proof.
  split; [| split].
  - split; [vm_compute; reflexivity |]. split; [listed |].
    apply (proj1 (zero_debt_partial_raises w_zero Sim.config) "0xU3" c_small
             d_zero 0%nat); [vm_compute; reflexivity | listed].
  - apply (proj1 (proj2 (zero_debt_partial_raises w_zero Sim.config)) "0xU3"
             c_small d_zero 0%nat). listed.
  - assert (H1 : trace run_late
                 = firstn 51 (trace run_late)
                   ++ Print (L_debt d_zero)
                      :: firstn 7 (skipn 52 (trace run_late))
                      ++ Print L_partial_debt :: [Rpc (R_decimals "0xD0")])
      by (vm_compute; reflexivity).
    assert (H2 : existsb is_debt_line (firstn 7 (skipn 52 (trace run_late)))
                 = false) by (vm_compute; reflexivity).
    assert (H3 : py_int (conv w_zero_late)
                   (vr_totalBorrowedAmount (variableRate d_zero)) = Ok 0)
      by (vm_compute; reflexivity).
    split; [exact H1 |]. split; [listed |]. split; [listed |].
    split; [exact H2 |]. split; [exact H3 |].
    split; [vm_compute; reflexivity |].
    exact (proj2 (proj2 (zero_debt_partial_raises w_zero_late Sim.config))
             0%nat d_zero _ _ _ H1 H2 H3).
Defined.

Lemma no_positions_no_calls_witness :
  (In (Rpc R_fee) (trace (trigger_logic w_ok Sim.config 0%nat)) /\
   exists p ps, fst (getLiquidatablePositions w_ok 0%nat) = Ok (p :: ps)) /\
  (fst (getLiquidatablePositions w_idle 0%nat) = Ok [] /\
   res (trigger_logic w_idle Sim.config 0%nat)
   = Raise (Exn "SystemExit" None) /\
   trace (trigger_logic w_idle Sim.config 0%nat)
   = [Rpc R_positions; Print L_no_liquidations]).
Proof.
  split.
  - split; [listed |].
    apply (proj1 (no_positions_no_calls w_ok Sim.config 0%nat) R_fee);
      [listed | discriminate].
  - split; [vm_compute; reflexivity |].
    apply (proj1 (proj2 (no_positions_no_calls w_idle Sim.config 0%nat))).
    vm_compute; reflexivity.
Defined.

Lemma liquidate_call_shape_witness :
  In (Rpc (R_build
             {| lc_debt := "0xD1"; lc_debtToCover := 90000000000000000000;
                lc_collateral := "0xC1"; lc_user := "0xU1";
                lc_assets := ["0xC1"; "0xD1"] |}
             {| tp_chainId := 1; tp_from := "0xB07"; tp_nonce := 0 |}))
     (trace run_liquidate) /\
  to_checksum_address w_ok "0xD1" = Ok "0xD1" /\
  to_checksum_address w_ok "0xC1" = Ok "0xC1" /\
  to_checksum_address w_ok "0xU1" = Ok "0xU1" /\
  ["0xC1"; "0xD1"] = ["0xC1"; "0xD1"] /\
  90000000000000000000 = 90000000000000000000 /\
  1 = CHAIN_ID Sim.config /\
  "0xB07" = "0xB07" /\
  fst (get_transaction_count w_ok "0xB07" 0%nat) = Ok 0.
Proof.
  split; [listed |].
  apply (liquidate_call_shape w_ok Sim.config "0xC1" "0xD1" "key" "0xB07"
           "0xU1" 90000000000000000000 0%nat
           {| lc_debt := "0xD1"; lc_debtToCover := 90000000000000000000;
              lc_collateral := "0xC1"; lc_user := "0xU1";
              lc_assets := ["0xC1"; "0xD1"] |}
           {| tp_chainId := 1; tp_from := "0xB07"; tp_nonce := 0 |}).
  listed.
Defined.

Lemma only_signed_bytes_submitted_witness :
  In (Rpc (R_send_raw "signed(0xC1<-0xD1)")) (trace run_liquidate) /\
  exists call p tx signed,
    In (Rpc (R_build call p)) (trace run_liquidate) /\
    fst (build_transaction w_ok call p
           (snd (get_transaction_count w_ok "0xB07" 0%nat))) = Ok tx /\
    sign_transaction w_ok tx "key" = Ok signed /\
    "signed(0xC1<-0xD1)" = rawTransaction signed.
Proof.
  split; [listed |].
  apply (only_signed_bytes_submitted w_ok Sim.config "0xC1" "0xD1" "key"
           "0xB07" "0xU1" 90000000000000000000 0%nat).
  listed.
Defined.

Lemma targets_belong_to_position_witness :
  In (Rpc (R_build
             {| lc_debt := "0xD1"; lc_debtToCover := 90000000000000000000;
                lc_collateral := "0xC1"; lc_user := "0xU1";
                lc_assets := ["0xC1"; "0xD1"] |}
             {| tp_chainId := 1; tp_from := "0xB07"; tp_nonce := 0 |}))
     (trace run_position) /\
  exists c b v,
    In c (supliedAssets p_ok) /\ eq_True (isCollateral c) = true /\
    py_float (conv w_ok) (fiatAmount c) = Ok v /\ flt_int v 1 = false /\
    In b (borrowedAssets p_ok) /\
    built_for w_ok (address p_ok) c b
      {| lc_debt := "0xD1"; lc_debtToCover := 90000000000000000000;
         lc_collateral := "0xC1"; lc_user := "0xU1";
         lc_assets := ["0xC1"; "0xD1"] |}.
Proof.
  split; [listed |].
  apply (targets_belong_to_position w_ok Sim.config p_ok 0%nat _
           {| tp_chainId := 1; tp_from := "0xB07"; tp_nonce := 0 |}).
  listed.
Defined.

Lemma finished_iff_completed_witness :
  res (trigger_logic w_ok Sim.config 0%nat) = Ok tt /\
  In (Print L_finished) (trace (trigger_logic w_ok Sim.config 0%nat)) /\
  (exists t, trace (trigger_logic w_ok Sim.config 0%nat)
             = t ++ [Print L_finished] /\
             ~ In (Print L_finished) t) /\
  (res (trigger_logic w_zero Sim.config 0%nat) <> Ok tt /\
   ~ In (Print L_finished) (trace (trigger_logic w_zero Sim.config 0%nat))).
Proof.
  assert (H : res (trigger_logic w_ok Sim.config 0%nat) = Ok tt)
    by (vm_compute; reflexivity).
  split; [exact H |].
  split; [exact (proj2 (proj1 (finished_iff_completed w_ok Sim.config 0%nat))
                   H) |].
  split; [exact (proj2 (finished_iff_completed w_ok Sim.config 0%nat) H) |].
  assert (H' : res (trigger_logic w_zero Sim.config 0%nat) <> Ok tt)
    by (vm_compute; discriminate).
  split; [exact H' |].
  intros Hin. apply H'.
  exact (proj1 (proj1 (finished_iff_completed w_zero Sim.config 0%nat)) Hin).
Defined.

Lemma zero_supply_partial_raises_witness :
  py_int (conv w_empty) (totalSuppliedAmount c_empty) = Ok 0 /\
  In (Print (L_one_debt_usd f_one)) (trace run_empty) /\
  res run_empty = Raise ZeroDivisionError /\
  exists e,
    res run_empty = Raise e /\
    (e = ZeroDivisionError \/
     (exists a, to_checksum_address w_empty a = Raise e) \/
     (exists a w', fst (decimals w_empty a w') = Raise e)) /\
    (forall x, ~ In (Print (L_one_collateral_usd x)) (trace run_empty)) /\
    (forall n, ~ In (Print (L_debt_to_cover n)) (trace run_empty)) /\
    ~ In (Print L_failed) (trace run_empty).
Proof.
  split; [vm_compute; reflexivity |]. split; [listed |].
  split; [vm_compute; reflexivity |].
  apply (zero_supply_partial_raises w_empty Sim.config "0xU6" c_empty d2
           0%nat f_one); [vm_compute; reflexivity | listed].
Defined.


End Examples.
